(** * soundscape-review-app: the review service, embedded and verified

    The repository holds two entry points that wrap the same four
    operations on one [reviews] table:

    - [src/server.js]: a long-running Express application;
    - [src/unnamed/part_000]: a single-invocation (serverless) function.

    This development embeds the request values, the table and the four
    operations, then states the properties of the specification over them.

    Conventions of the embedding:
    - a JavaScript value is a [Value]; a number is the rational it denotes
      (binary rounding is outside the model);
    - a JavaScript object used as a map (request body, query parameters,
      headers) is a [gmap string _]; an absent key reads as [undefined];
    - the table is a list of typed rows plus the next value of the
      [SERIAL] sequence; a statement either fails (the driver throws and
      the handler answers 500) or returns rows;
    - what the JavaScript runtime, the [pg] driver and PostgreSQL do with
      text (number formatting, input functions of the column types) is not
      code of this repository: it is the interface [Platform]. *)

From Stdlib Require Import ZArith QArith Qround Lia List Ascii String Permutation Sorted.
From stdpp Require Import base decidable option list strings gmap sorting pretty.

Local Open Scope string_scope.
Local Open Scope Z_scope.

(** ** JavaScript values *)

(** [VObj prim sql] stands for an object or an array: the handlers only
    observe that it is truthy, the string its primitive conversion yields
    ([prim]) and the text the driver sends for it ([sql]). *)
Inductive Value : Type :=
  | VUndefined
  | VNull
  | VBool (b : bool)
  | VNum (q : Q)
  | VStr (s : string)
  | VObj (prim sql : string).

(** ** What the runtime and the database supply *)

Class Platform : Type := {
  (** JavaScript [Number(s)] on a string; [None] is [NaN]. *)
  StringToNumber : string → option Q;
  (** JavaScript [String(n)] on a number. *)
  NumberToString : Q → string;
  (** JavaScript [String(d)] on a [Date], given as an instant. *)
  DateToString : Z → string;
  (** [new Date(t).toISOString()]. *)
  toISOString : Z → string;
  (** PostgreSQL input functions; [None] means the statement fails. *)
  pg_int4 : string → option Z;
  pg_numeric_3_2 : string → option Z;   (* DECIMAL(3,2), in hundredths *)
  pg_timestamptz : string → option Z;
  pg_inet : string → option string;
  pg_varchar : nat → string → option string;
}.

Module JS.

(** [!!v] *)
Definition truthy (v : Value) : bool :=
  match v with
  | VUndefined | VNull => false
  | VBool b => b
  | VNum q => negb (Qeq_bool q 0)
  | VStr s => negb (String.eqb s "")
  | VObj _ _ => true
  end.

(** A string read from a map: [undefined] when the key is absent. *)
Definition truthy_str (o : option string) : bool :=
  match o with
  | None => false
  | Some s => negb (String.eqb s "")
  end.

(** [a || b] on optional strings. *)
Definition or_str (a b : option string) : option string :=
  if truthy_str a then a else b.

(** A string that may be [undefined], as a value. *)
Definition str_value (o : option string) : Value :=
  match o with
  | Some s => VStr s
  | None => VUndefined
  end.

Definition is_undefined (v : Value) : bool :=
  match v with VUndefined => true | _ => false end.

(** Reading a property of a parsed object. *)
Definition prop (o : gmap string Value) (k : string) : Value :=
  default VUndefined (o !! k).

(** The double-quote character. *)
Definition dq : ascii := ascii_of_nat 34.

(** [s.replace] with the global pattern that matches a double quote and
    two double quotes as replacement: every double quote is written
    twice. *)
Fixpoint double_quotes (s : string) : string :=
  match s with
  | EmptyString => EmptyString
  | String c s' =>
      if Ascii.eqb c dq then String dq (String dq (double_quotes s'))
      else String c (double_quotes s')
  end.

(** [l.join(sep)] on strings. *)
Fixpoint join (sep : string) (l : list string) : string :=
  match l with
  | [] => ""
  | [x] => x
  | x :: l' => x +:+ sep +:+ join sep l'
  end.

(** [s.replace(pat, by)] with a string pattern: the first occurrence
    only. *)
Fixpoint replace_first (pat by_ s : string) : string :=
  if String.prefix pat s then
    by_ +:+ String.substring (String.length pat)
                             (String.length s - String.length pat) s
  else
    match s with
    | EmptyString => EmptyString
    | String c s' => String c (replace_first pat by_ s')
    end.

(** [s.split("T")[0]]: what comes before the first [T]. *)
Fixpoint before_T (s : string) : string :=
  match s with
  | EmptyString => EmptyString
  | String c s' =>
      if Ascii.eqb c "T"%char then EmptyString else String c (before_T s')
  end.

Definition two_digits (n : Z) : string :=
  if n <? 10 then "0" +:+ pretty n else pretty n.

(** [x.toFixed(2)] for a finite [x]: the nearest number of hundredths,
    the larger one on a tie. *)
Definition toFixed2 (x : Q) : string :=
  let neg := negb (Qle_bool 0 x) in
  let a := if neg then Qopp x else x in
  let n := Qfloor (a * 100 + (1 # 2))%Q in
  (if neg then "-" else "") +:+ pretty (n / 100) +:+ "." +:+
  two_digits (n mod 100).

Section with_platform.
Context `{Platform}.

(** [Number(v)]; [None] is [NaN]. *)
Definition ToNumber (v : Value) : option Q :=
  match v with
  | VUndefined => None
  | VNull => Some 0%Q
  | VBool b => Some (if b then 1%Q else 0%Q)
  | VNum q => Some q
  | VStr s => StringToNumber s
  | VObj prim _ => StringToNumber prim
  end.

(** [v < n] and [v > n] against a number literal: a comparison with
    [NaN] is false. *)
Definition lt_num (v : Value) (n : Q) : bool :=
  match ToNumber v with
  | Some q => negb (Qle_bool n q)
  | None => false
  end.

Definition gt_num (v : Value) (n : Q) : bool :=
  match ToNumber v with
  | Some q => negb (Qle_bool q n)
  | None => false
  end.
End with_platform.

End JS.

(** ** [parseInt] *)

Module ParseInt.

Definition is_space (c : ascii) : bool :=
  let n := nat_of_ascii c in
  ((9 <=? n) && (n <=? 13) || (n =? 32))%nat.

Fixpoint skip_spaces (s : string) : string :=
  match s with
  | String c s' => if is_space c then skip_spaces s' else s
  | EmptyString => s
  end.

(** The value of a digit in the given radix, if it is one. *)
Definition digit (radix : Z) (c : ascii) : option Z :=
  let n := Z.of_nat (nat_of_ascii c) in
  let d :=
    if (48 <=? n) && (n <=? 57) then Some (n - 48)
    else if (97 <=? n) && (n <=? 122) then Some (n - 87)
    else if (65 <=? n) && (n <=? 90) then Some (n - 55)
    else None in
  match d with
  | Some v => if v <? radix then Some v else None
  | None => None
  end.

(** Reads the longest prefix of digits; [acc] is [None] until a digit
    has been read. *)
Fixpoint digits (radix : Z) (acc : option Z) (s : string) : option Z :=
  match s with
  | String c s' =>
      match digit radix c with
      | Some d => digits radix (Some (default 0 acc * radix + d)) s'
      | None => acc
      end
  | EmptyString => acc
  end.

Definition strip_hex (s : string) : option string :=
  match s with
  | String "0"%char (String "x"%char s')
  | String "0"%char (String "X"%char s') => Some s'
  | _ => None
  end.

Definition unsigned (s : string) : option Z :=
  match strip_hex s with
  | Some s' => digits 16 None s'
  | None => digits 10 None s
  end.

(** [parseInt(s)] with no radix argument; [None] is [NaN]. *)
Definition parseInt (s : string) : option Z :=
  match skip_spaces s with
  | String "-"%char s' => Z.opp <$> unsigned s'
  | String "+"%char s' => unsigned s'
  | s' => unsigned s'
  end.

(** [parseInt(x)] where [x] was destructured with a default: the query
    string when the key is there, the integer literal [dflt] otherwise
    ([parseInt] of an integer literal is that integer). *)
Definition parseInt_default (dflt : Z) (o : option string) : option Z :=
  match o with
  | Some s => parseInt s
  | None => Some dflt
  end.

End ParseInt.

(** ** The [reviews] table *)

Module Db.

(** One row; [rating] is held in hundredths, as [DECIMAL(3,2)] does, and
    instants are integers. *)
Record Row : Type := mkRow {
  id : Z;
  audio_id : Z;
  title : string;
  rating : Z;
  timestamp : option Z;
  date : string;
  time : string;
  user_agent : option string;
  session_id : string;
  ip_address : option string;
  created_at : Z;
  updated_at : Z;
}.

Record Store : Type := mkStore {
  rows : list Row;
  next_id : Z;
}.

Definition empty : Store := mkStore [] 1.

(** The columns an UPDATE or an INSERT writes from the request. *)
Record Written : Type := mkWritten {
  w_title : string;
  w_rating : Z;
  w_timestamp : option Z;
  w_date : string;
  w_time : string;
  w_user_agent : option string;
  w_ip_address : option string;
}.

(** [pg]'s [prepareValue]: [null] and [undefined] are sent as NULL,
    anything else as text. *)
Definition prepareValue `{Platform} (v : Value) : option string :=
  match v with
  | VUndefined | VNull => None
  | VBool b => Some (if b then "true" else "false")
  | VNum q => Some (NumberToString q)
  | VStr s => Some s
  | VObj _ sql => Some sql
  end.

(** A parameter read at a column type: the outer [None] is a failed
    statement, the inner one is NULL. *)
Definition bind `{Platform} {T} (input : string → option T) (v : Value)
  : option (option T) :=
  match prepareValue v with
  | None => Some None
  | Some s => Some <$> input s
  end.

(** A [NOT NULL] column. *)
Definition not_null {T} (x : option (option T)) : option T :=
  match x with
  | Some (Some t) => Some t
  | _ => None
  end.

(** [CHECK (rating >= 0 AND rating <= 5)] *)
Definition check_rating (r : Z) : option Z :=
  if (0 <=? r) && (r <=? 500) then Some r else None.

Definition same_pair (s : string) (a : Z) (r : Row) : bool :=
  String.eqb (session_id r) s && (audio_id r =? a).

Section statements.
Context `{Platform}.

(** The parameters of the WHERE clause
    [session_id = $_ AND audio_id = $_]. [Some None] says a
    parameter is NULL, so that no row matches. *)
Definition bind_pair (sessionId audioId : Value)
  : option (option (string * Z)) :=
  s ← bind Some sessionId;
  a ← bind pg_int4 audioId;
  Some (s' ← s; a' ← a; Some (s', a')).

Definition matching (st : Store) (k : option (string * Z)) : list Row :=
  match k with
  | Some (s, a) => filter (λ r, Is_true (same_pair s a r)) (rows st)
  | None => []
  end.

(** [SELECT id FROM reviews WHERE session_id = $1 AND audio_id = $2] *)
Definition select_existing (st : Store) (sessionId audioId : Value)
  : option (list Z) :=
  k ← bind_pair sessionId audioId;
  Some (id <$> matching st k).

(** The written columns, with their types and constraints. *)
Definition written (title rating timestamp date time userAgent clientIp
                    : Value) : option Written :=
  t ← not_null (bind (pg_varchar 500) title);
  r ← not_null (bind pg_numeric_3_2 rating) ≫= check_rating;
  ts ← bind pg_timestamptz timestamp;
  d ← not_null (bind (pg_varchar 20) date);
  tm ← not_null (bind (pg_varchar 20) time);
  ua ← bind Some userAgent;
  ip ← bind pg_inet clientIp;
  Some (mkWritten t r ts d tm ua ip).

(** The pair an INSERT stores, as the columns [session_id
    VARCHAR(100) NOT NULL] and [audio_id INTEGER NOT NULL] read it. *)
Definition stored_pair (sessionId audioId : Value) : option (string * Z) :=
  s ← not_null (bind (pg_varchar 100) sessionId);
  a ← not_null (bind pg_int4 audioId);
  Some (s, a).

Definition overwrite (w : Written) (now : Z) (r : Row) : Row :=
  mkRow (id r) (audio_id r) (w_title w) (w_rating w) (w_timestamp w)
        (w_date w) (w_time w) (w_user_agent w) (session_id r)
        (w_ip_address w) (created_at r) now.

(** The written columns of a row. *)
Definition written_of (r : Row) : Written :=
  mkWritten (title r) (rating r) (timestamp r) (date r) (time r)
            (user_agent r) (ip_address r).

Definition hit (k : option (string * Z)) (r : Row) : bool :=
  match k with
  | Some (s, a) => same_pair s a r
  | None => false
  end.

(** What an UPDATE makes of a row: the rows the WHERE clause hits are
    overwritten, the others stay. *)
Definition updated (k : option (string * Z)) (w : Written) (now : Z)
    (r : Row) : Row :=
  if hit k r then overwrite w now r else r.

(** [UPDATE reviews SET title = $1, rating = $2, timestamp = $3,
    date = $4, time = $5, user_agent = $6, ip_address = $7,
    updated_at = CURRENT_TIMESTAMP
    WHERE session_id = $8 AND audio_id = $9 RETURNING id] *)
Definition update_review (st : Store) (now : Z)
    (title rating timestamp date time userAgent clientIp
     sessionId audioId : Value) : option (Store * list Z) :=
  w ← written title rating timestamp date time userAgent clientIp;
  k ← bind_pair sessionId audioId;
  Some (mkStore (updated k w now <$> rows st) (next_id st),
        id <$> matching st k).

(** [INSERT INTO reviews (audio_id, title, rating, timestamp, date,
    time, user_agent, session_id, ip_address) VALUES ($1, ..., $9)
    RETURNING id]; [id] comes from the sequence, [created_at] and
    [updated_at] from their defaults. *)
Definition insert_review (st : Store) (now : Z)
    (audioId title rating timestamp date time userAgent
     sessionId clientIp : Value) : option (Store * list Z) :=
  w ← written title rating timestamp date time userAgent clientIp;
  k ← stored_pair sessionId audioId;
  let r := mkRow (next_id st) k.2 (w_title w) (w_rating w)
                 (w_timestamp w) (w_date w) (w_time w) (w_user_agent w)
                 k.1 (w_ip_address w) now now in
  Some (mkStore (rows st ++ [r]) (next_id st + 1), [id r]).

(** The session and audio item are stored as they are looked up: the
    pair an INSERT writes is the pair the WHERE clause reads from the same
    parameters (the session id fits its column as sent). *)
Definition pair_kept (sessionId audioId : Value) : Prop :=
  ∀ k, stored_pair sessionId audioId = Some k →
       bind_pair sessionId audioId = Some (Some k).
End statements.

(** How many rows the table holds for a pair. *)
Definition pair_count (st : Store) (s : string) (a : Z) : nat :=
  length (filter (λ r, Is_true (same_pair s a r)) (rows st)).

(** At most one row per (session_id, audio_id). *)
Definition one_row_per_pair (st : Store) : Prop :=
  ∀ s a, (pair_count st s a ≤ 1)%nat.

(** [ORDER BY created_at DESC]: the order SQL leaves open among equal
    instants is fixed here by a stable sort. *)
Definition newer (r1 r2 : Row) : Prop := created_at r2 ≤ created_at r1.

Global Instance newer_dec r1 r2 : Decision (newer r1 r2).
Proof. unfold newer. apply _. Defined.

Definition newest_first (l : list Row) : list Row := merge_sort newer l.

(** [SELECT * FROM reviews WHERE session_id = $1
    ORDER BY created_at DESC] *)
Definition select_session (st : Store) (sessionId : string) : list Row :=
  newest_first (filter (λ r, session_id r = sessionId) (rows st)).

(** [SELECT r.*, COUNT( * ) OVER () as total_count FROM reviews r
    ORDER BY r.created_at DESC LIMIT $1 OFFSET $2]: each row of the page
    carries the number of rows of the table. [NaN], a negative number
    or one beyond [bigint] makes the statement fail. *)
Definition select_page (st : Store) (limit offset : option Z)
  : option (list (Row * Z)) :=
  l ← limit;
  o ← offset;
  if (0 <=? l) && (l <? 2 ^ 63) && (0 <=? o) && (o <? 2 ^ 63) then
    Some ((λ r, (r, Z.of_nat (length (rows st))))
            <$> take (Z.to_nat l) (drop (Z.to_nat o) (newest_first (rows st))))
  else None.


(** *** The three statements of the analytics operation *)

Record Totals : Type := mkTotals {
  total_reviews : Z;
  average_rating : option Q;          (* NULL on an empty table *)
  unique_sessions : Z;
  reviewed_audios : Z;
  first_review : option Z;
  latest_review : option Z;
}.

Definition count {A} (l : list A) : Z := Z.of_nat (length l).

(** [AVG(rating)], NULL when there is no row. *)
Definition avg_rating (l : list Row) : option Q :=
  match l with
  | [] => None
  | _ => Some (Qdiv (inject_Z (foldr Z.add 0 (rating <$> l)))
                    (inject_Z (100 * count l)))
  end.

Definition extremum (pick : Z → Z → Z) (l : list Z) : option Z :=
  match l with
  | [] => None
  | x :: l' => Some (foldr pick x l')
  end.

(** [SELECT COUNT( * ), AVG(rating), COUNT(DISTINCT session_id),
    COUNT(DISTINCT audio_id), MIN(created_at), MAX(created_at)
    FROM reviews] *)
Definition select_totals (st : Store) : Totals :=
  let rs := rows st in
  mkTotals (count rs) (avg_rating rs)
           (count (remove_dups (session_id <$> rs)))
           (count (remove_dups (audio_id <$> rs)))
           (extremum Z.min (created_at <$> rs))
           (extremum Z.max (created_at <$> rs)).

(** [FLOOR(rating)] *)
Definition rating_floor (r : Row) : Z := rating r / 100.

(** [SELECT FLOOR(rating) as rating_floor, COUNT( * ) as count
    FROM reviews GROUP BY FLOOR(rating) ORDER BY rating_floor] *)
Definition select_distribution (st : Store) : list (Z * Z) :=
  (λ k, (k, count (filter (λ r, rating_floor r = k) (rows st))))
    <$> merge_sort Z.le (remove_dups (rating_floor <$> rows st)).

Record AudioGroup : Type := mkAudioGroup {
  g_audio_id : Z;
  g_title : string;
  g_review_count : Z;
  g_average_rating : option Q;
}.

Definition more_reviewed (g1 g2 : AudioGroup) : Prop :=
  g_review_count g2 ≤ g_review_count g1.

Global Instance more_reviewed_dec g1 g2 : Decision (more_reviewed g1 g2).
Proof. unfold more_reviewed. apply _. Defined.

(** [SELECT audio_id, title, COUNT( * ) as review_count,
    AVG(rating) as average_rating FROM reviews
    GROUP BY audio_id, title ORDER BY review_count DESC] *)
Definition select_audio_stats (st : Store) : list AudioGroup :=
  merge_sort more_reviewed
    ((λ k : Z * string,
        let g := filter (λ r, (audio_id r, title r) = k) (rows st) in
        mkAudioGroup k.1 k.2 (count g) (avg_rating g))
       <$> remove_dups ((λ r, (audio_id r, title r)) <$> rows st)).

End Db.

(** ** Responses *)

Module Public.
(** The shape a session's reviews are listed in. *)
Record Review : Type := mkReview {
  id : Z;
  audioId : Z;
  title : string;
  rating : Q;
  timestamp : option Z;
  date : string;
  time : string;
  sessionId : string;
  createdAt : Z;
}.
End Public.

Module Admin.
(** The shape of the admin listing. *)
Record Review : Type := mkReview {
  id : Z;
  audioId : Z;
  title : string;
  rating : Q;
  timestamp : option Z;
  date : string;
  time : string;
  userAgent : option string;
  sessionId : string;
  ipAddress : option string;
  createdAt : Z;
  updatedAt : Z;
}.
End Admin.

Module Stats.
Record Audio : Type := mkAudio {
  audioId : Z;
  title : string;
  reviewCount : Z;
  averageRating : string;
}.

Record Analytics : Type := mkAnalytics {
  totalReviews : Z;
  overallAverageRating : string;      (* the key [averageRating] *)
  uniqueSessions : Z;
  reviewedAudios : Z;
  firstReview : option Z;
  latestReview : option Z;
  ratingDistribution : list (Z * Z);  (* rating_floor, count *)
  audioStats : list Audio;
}.
End Stats.

(** What a response carries: a JSON object of one of the shapes the
    handlers build, or raw text. *)
Inductive Body : Type :=
  | Text (s : string)
  | Error (error : string)
  | Submitted (id : Z) (message : string)
  | Reviews (reviews : list Public.Review)
  | Page (reviews : list Admin.Review) (totalCount : Z)
         (limit offset : option Z)
  | Analytics (analytics : Stats.Analytics)
  | Health (timestamp : string)
  | File (path : string).

Record Response : Type := mkResponse {
  statusCode : Z;
  headers : list (string * string);
  body : Body;
}.

(** ** The four operations

    Both entry points carry the same text for what follows the reading of
    the request; it is embedded once. *)

Module Api.

Definition json (status : Z) (b : Body) : Response := mkResponse status [] b.

Definition internal_error : Response :=
  json 500 (Error "Internal server error").

(** [parseFloat(row.rating)] *)
Definition parseFloat_rating (hundredths : Z) : Q :=
  Qdiv (inject_Z hundredths) (inject_Z 100).

Definition public_review (row : Db.Row) : Public.Review :=
  Public.mkReview (Db.id row) (Db.audio_id row) (Db.title row)
    (parseFloat_rating (Db.rating row)) (Db.timestamp row) (Db.date row)
    (Db.time row) (Db.session_id row) (Db.created_at row).

Definition admin_review (row : Db.Row) : Admin.Review :=
  Admin.mkReview (Db.id row) (Db.audio_id row) (Db.title row)
    (parseFloat_rating (Db.rating row)) (Db.timestamp row) (Db.date row)
    (Db.time row) (Db.user_agent row) (Db.session_id row)
    (Db.ip_address row) (Db.created_at row) (Db.updated_at row).

(** *** List session reviews *)

Definition getReviews (st : Db.Store) (sessionId : option string)
  : Response :=
  if negb (JS.truthy_str sessionId) then
    json 400 (Error "Session ID is required")
  else
    json 200 (Reviews (public_review
                         <$> Db.select_session st (default "" sessionId))).

Section with_platform.
Context `{Platform}.

(** *** Submit or update a review *)

(** The two validation steps; [Some] is the 400 answer. *)
Definition validate (audioId title rating sessionId : Value)
  : option Response :=
  if negb (JS.truthy audioId) || negb (JS.truthy title)
     || JS.is_undefined rating || negb (JS.truthy sessionId) then
    Some (json 400
      (Error "Missing required fields: audioId, title, rating, sessionId"))
  else if JS.lt_num rating 0 || JS.gt_num rating 5 then
    Some (json 400 (Error "Rating must be between 0 and 5"))
  else None.

(** The statements after validation. [result.rows[0].id] throws when
    the statement returned no row. *)
Definition upsert (st : Db.Store) (now : Z)
    (audioId title rating timestamp date time userAgent sessionId
     clientIp : Value) : option (Db.Store * Z) :=
  existingReview ← Db.select_existing st sessionId audioId;
  '(st', result) ←
    (if (0 <? Db.count existingReview) then
       Db.update_review st now title rating timestamp date time
                        userAgent clientIp sessionId audioId
     else
       Db.insert_review st now audioId title rating timestamp date time
                        userAgent sessionId clientIp);
  i ← head result;
  Some (st', i).

Definition submitReview (st : Db.Store) (now : Z)
    (body : option (gmap string Value)) (clientIp : Value)
  : Db.Store * Response :=
  match body with
  | None => (st, internal_error)
  | Some b =>
      let audioId := JS.prop b "audioId" in
      let title := JS.prop b "title" in
      let rating := JS.prop b "rating" in
      let timestamp := JS.prop b "timestamp" in
      let date := JS.prop b "date" in
      let time := JS.prop b "time" in
      let userAgent := JS.prop b "userAgent" in
      let sessionId := JS.prop b "sessionId" in
      match validate audioId title rating sessionId with
      | Some bad => (st, bad)
      | None =>
          match upsert st now audioId title rating timestamp date time
                       userAgent sessionId clientIp with
          | Some (st', i) =>
              (st', json 200 (Submitted i "Review submitted successfully"))
          | None => (st, internal_error)
          end
      end
  end.

(** *** Admin list and export *)

Definition csv_headers : list string :=
  ["ID"; "Audio ID"; "Title"; "Rating"; "Date"; "Time"; "Session ID";
   "IP Address"; "Created At"].

Definition quoted (s : string) : string :=
  String JS.dq (JS.double_quotes s) +:+ String JS.dq "".

(** One review as the array that is joined with commas: numbers and
    dates are converted to strings, [null] to the empty string. *)
Definition csv_fields (review : Admin.Review) : list string :=
  [NumberToString (inject_Z (Admin.id review));
   NumberToString (inject_Z (Admin.audioId review));
   quoted (Admin.title review);
   NumberToString (Admin.rating review);
   Admin.date review;
   Admin.time review;
   Admin.sessionId review;
   default "" (Admin.ipAddress review);
   DateToString (Admin.createdAt review)].

Definition csv_line (review : Admin.Review) : string :=
  JS.join "," (csv_fields review).

Definition newline : string := String (ascii_of_nat 10) "".

Definition csvContent (reviews : list Admin.Review) : string :=
  JS.join newline (JS.join "," csv_headers :: (csv_line <$> reviews)).

Definition csv_response_headers (now : Z) : list (string * string) :=
  [("Content-Type", "text/csv");
   ("Content-Disposition",
    "attachment; filename=" +:+ String JS.dq "" +:+ "reviews-" +:+
    JS.before_T (toISOString now) +:+ ".csv" +:+ String JS.dq "")].

Definition getAllReviews (st : Db.Store) (now : Z)
    (limit offset format : option string) : Response :=
  match Db.select_page st (ParseInt.parseInt_default 1000 limit)
                          (ParseInt.parseInt_default 0 offset) with
  | None => internal_error
  | Some result =>
      let reviews := (λ row, admin_review row.1) <$> result in
      if bool_decide (format = Some "csv") then
        mkResponse 200 (csv_response_headers now)
                   (Text (csvContent reviews))
      else
        json 200
          (Page reviews
                (match result with
                 | row :: _ => row.2
                 | [] => 0
                 end)
                (ParseInt.parseInt_default 1000 limit)
                (ParseInt.parseInt_default 0 offset))
  end.
End with_platform.

(** *** Analytics *)

Definition audio_stat (row : Db.AudioGroup) : Stats.Audio :=
  Stats.mkAudio (Db.g_audio_id row) (Db.g_title row)
    (Db.g_review_count row)
    (match Db.g_average_rating row with
     | Some q => JS.toFixed2 q
     | None => "NaN"
     end).

Definition getAnalytics (st : Db.Store) : Response :=
  let analytics := Db.select_totals st in
  let ratingDistribution := Db.select_distribution st in
  let audioStats := Db.select_audio_stats st in
  json 200 (Analytics
    (Stats.mkAnalytics
       (Db.total_reviews analytics)
       (JS.toFixed2 (default 0%Q (Db.average_rating analytics)))
       (Db.unique_sessions analytics)
       (Db.reviewed_audios analytics)
       (Db.first_review analytics)
       (Db.latest_review analytics)
       ratingDistribution
       (audio_stat <$> audioStats))).

End Api.

(** ** The serverless entry point ([src/unnamed/part_000]) *)

Module Netlify.

Definition corsHeaders : list (string * string) :=
  [("Access-Control-Allow-Origin", "*");
   ("Access-Control-Allow-Headers", "Content-Type");
   ("Access-Control-Allow-Methods", "GET, POST, OPTIONS")].

(** Every answer spreads [corsHeaders] before its own headers. *)
Definition with_cors (r : Response) : Response :=
  mkResponse (statusCode r) (corsHeaders ++ headers r) (body r).

Record Event : Type := mkEvent {
  httpMethod : string;
  path : string;
  queryStringParameters : option (gmap string string);
  headers : gmap string string;
  (** [JSON.parse(event.body)]: [None] when parsing throws or yields
      [null]; a parsed value that is no object has none of the keys. *)
  body : option (gmap string Value);
}.

(** [event.queryStringParameters || {}], then one key. *)
Definition param (event : Event) (k : string) : option string :=
  default ∅ (queryStringParameters event) !! k.

Definition getReviews (st : Db.Store) (event : Event) : Response :=
  with_cors (Api.getReviews st (param event "sessionId")).

(** [event.headers["x-forwarded-for"] || event.headers["x-real-ip"]
    || "unknown"] *)
Definition clientIp (event : Event) : option string :=
  JS.or_str (JS.or_str (headers event !! "x-forwarded-for")
                       (headers event !! "x-real-ip"))
            (Some "unknown").

Section with_platform.
Context `{Platform}.

Definition submitReview (st : Db.Store) (now : Z) (event : Event)
  : Db.Store * Response :=
  let '(st', r) :=
    Api.submitReview st now (body event) (JS.str_value (clientIp event)) in
  (st', with_cors r).

Definition getAllReviews (st : Db.Store) (now : Z) (event : Event)
  : Response :=
  with_cors (Api.getAllReviews st now (param event "limit")
               (param event "offset") (param event "format")).

Definition getAnalytics (st : Db.Store) (event : Event) : Response :=
  with_cors (Api.getAnalytics st).

Definition handler (st : Db.Store) (now : Z) (event : Event)
  : Db.Store * Response :=
  if String.eqb (httpMethod event) "OPTIONS" then
    (st, mkResponse 200 corsHeaders (Text ""))
  else
    let path := JS.replace_first "/.netlify/functions/api" "" (path event) in
    let method := httpMethod event in
    if String.eqb path "/reviews" && String.eqb method "GET" then
      (st, getReviews st event)
    else if String.eqb path "/reviews" && String.eqb method "POST" then
      submitReview st now event
    else if String.eqb path "/admin/reviews" && String.eqb method "GET" then
      (st, getAllReviews st now event)
    else if String.eqb path "/admin/analytics" && String.eqb method "GET"
    then (st, getAnalytics st event)
    else (st, with_cors (Api.json 404 (Error "Not found"))).
End with_platform.

End Netlify.

(** ** The standalone entry point ([src/server.js]) *)

Module Server.

Record Request : Type := mkRequest {
  method : string;
  path : string;
  query : gmap string string;
  (** What [express.json()] leaves in [req.body]: [None] when the body
      is malformed, the empty object when there is none. *)
  body : option (gmap string Value);
  headers : gmap string string;
  ip : option string;
  remoteAddress : option string;        (* [req.connection.remoteAddress] *)
}.

(** [req.ip || req.connection.remoteAddress] *)
Definition clientIp (req : Request) : option string :=
  JS.or_str (ip req) (remoteAddress req).

(** What the framework decides, which is no code of this repository:
    whether a handler registered with [app.get] or [app.post] on a path
    handles a request, and whether [express.static] finds a file for
    it. *)
Record Express : Type := mkExpress {
  handles : string → string → Request → bool;
  serves : Request → bool;
}.

Inductive Route : Type :=
  | ListReviews | SubmitReview | AdminReviews | AdminAnalytics
  | Index | HealthCheck.

(** The handlers in the order [app] registers them. *)
Definition registered : list (string * string * Route) :=
  [("get", "/api/reviews", ListReviews);
   ("post", "/api/reviews", SubmitReview);
   ("get", "/api/admin/reviews", AdminReviews);
   ("get", "/api/admin/analytics", AdminAnalytics);
   ("get", "/", Index);
   ("get", "/health", HealthCheck)].

(** The first registered handler that handles the request. *)
Definition dispatch (express : Express) (req : Request) : option Route :=
  snd <$> List.find (λ h, handles express h.1.1 h.1.2 req) registered.

Section with_platform.
Context `{Platform}.

(** The middleware and routes in the order [app] registers them:
    [cors()] (which answers a preflight itself, 204 by default),
    [express.json()] (a malformed body goes to the error handler),
    [express.static], the routes, the 404 handler. *)
Definition app (express : Express) (st : Db.Store) (now : Z) (req : Request)
  : Db.Store * Response :=
  if String.eqb (method req) "OPTIONS" then (st, Api.json 204 (Text ""))
  else if bool_decide (body req = None) then (st, Api.internal_error)
  else if serves express req then (st, Api.json 200 (File (path req)))
  else
    match dispatch express req with
    | Some ListReviews =>
        (st, Api.getReviews st (query req !! "sessionId"))
    | Some SubmitReview =>
        Api.submitReview st now (body req) (JS.str_value (clientIp req))
    | Some AdminReviews =>
        (st, Api.getAllReviews st now (query req !! "limit")
                               (query req !! "offset") (query req !! "format"))
    | Some AdminAnalytics => (st, Api.getAnalytics st)
    | Some Index => (st, Api.json 200 (File "public/index.html"))
    | Some HealthCheck => (st, Api.json 200 (Health (toISOString now)))
    | None => (st, Api.json 404 (Error "Not found"))
    end.
End with_platform.

End Server.

(** ** A platform to run the operations on

    Enough of the runtime and of the database to evaluate the handlers on
    examples: numbers with at most two decimals, instants written as
    integers, addresses made of hexadecimal digits, dots and colons. *)

Module Sample.

Definition all_digits (s : string) : option Z :=
  match s with
  | EmptyString => None
  | _ =>
      if forallb (λ c, bool_decide (is_Some (ParseInt.digit 10 c)))
                 (list_ascii_of_string s)
      then ParseInt.digits 10 None s else None
  end.

Definition signed (s : string) : option Z :=
  match s with
  | String "-"%char s' => Z.opp <$> all_digits s'
  | _ => all_digits s
  end.

Fixpoint split_dot (s : string) : string * option string :=
  match s with
  | EmptyString => (EmptyString, None)
  | String c s' =>
      if Ascii.eqb c "."%char then (EmptyString, Some s')
      else let '(a, b) := split_dot s' in (String c a, b)
  end.

(** A decimal numeral with at most two decimals, in hundredths. *)
Definition hundredths (s : string) : option Z :=
  let neg := String.prefix "-" s in
  let body := if neg then String.substring 1 (String.length s - 1) s else s in
  let '(i, f) := split_dot body in
  n ← all_digits i;
  d ← match f with
      | None => Some 0
      | Some f' =>
          match String.length f' with
          | 1%nat => (λ x, 10 * x) <$> all_digits f'
          | 2%nat => all_digits f'
          | _ => None
          end
      end;
  Some ((if neg then -1 else 1) * (100 * n + d)).

Definition show_hundredths (n : Z) : string :=
  let a := Z.abs n in
  (if n <? 0 then "-" else "") +:+ pretty (a / 100) +:+
  (if a mod 100 =? 0 then ""
   else if a mod 10 =? 0 then "." +:+ pretty (a mod 100 / 10)
   else "." +:+ JS.two_digits (a mod 100)).

Definition address_char (c : ascii) : bool :=
  bool_decide (is_Some (ParseInt.digit 16 c)) || Ascii.eqb c "."%char
  || Ascii.eqb c ":"%char.

Global Instance platform : Platform := {|
  StringToNumber s :=
    if String.eqb s "" then Some 0%Q
    else (λ n, Qdiv (inject_Z n) (inject_Z 100)) <$> hundredths s;
  NumberToString q := show_hundredths (Qfloor (q * inject_Z 100));
  DateToString t := "Date " +:+ pretty t;
  toISOString t := "D" +:+ pretty (t / 86400) +:+ "T" +:+ pretty (t mod 86400);
  pg_int4 s :=
    n ← signed s;
    if (- 2 ^ 31 <=? n) && (n <? 2 ^ 31) then Some n else None;
  pg_numeric_3_2 s :=
    n ← hundredths s;
    if Z.abs n <? 1000 then Some n else None;
  pg_timestamptz := signed;
  pg_inet s :=
    if negb (String.eqb s "") && forallb address_char (list_ascii_of_string s)
    then Some s else None;
  pg_varchar n s :=
    if (String.length s <=? n)%nat then Some s else None;
|}.


(** The same platform with PostgreSQL's rule for a string longer than
    its [VARCHAR(n)] column: it is cut to [n] characters when what
    exceeds is made of spaces, and refused otherwise. *)
Definition all_spaces (s : string) : bool :=
  forallb (λ c, Ascii.eqb c " "%char) (list_ascii_of_string s).

Definition truncating : Platform := {|
  StringToNumber := @StringToNumber platform;
  NumberToString := @NumberToString platform;
  DateToString := @DateToString platform;
  toISOString := @toISOString platform;
  pg_int4 := @pg_int4 platform;
  pg_numeric_3_2 := @pg_numeric_3_2 platform;
  pg_timestamptz := @pg_timestamptz platform;
  pg_inet := @pg_inet platform;
  pg_varchar n s :=
    if (String.length s <=? n)%nat then Some s
    else if all_spaces (String.substring n (String.length s - n) s)
    then Some (String.substring 0 n s) else None;
|}.

End Sample.

(** ** The logical routes *)

Module Routes.

(** The path the serverless entry point dispatches on. *)
Definition netlify_path (event : Netlify.Event) : string :=
  JS.replace_first "/.netlify/functions/api" "" (Netlify.path event).

End Routes.

(** ** The specification's words *)

Module Spec.
(** "The first populated of" a sequence of sources, else a fallback: a
    source is populated when it is there and not empty. *)
Fixpoint first_populated (sources : list (option string))
    (fallback : option string) : option string :=
  match sources with
  | [] => fallback
  | Some s :: rest =>
      if String.eqb s "" then first_populated rest fallback else Some s
  | None :: rest => first_populated rest fallback
  end.

(** The client address of the submit operation as the specification
    words it. *)
Definition client_ip (forwarded_for real_ip remote_address : option string)
  : option string :=
  first_populated [forwarded_for; real_ip; remote_address] (Some "unknown").

(** A required field is missing when the body does not have it. *)
Definition missing (b : gmap string Value) (field : string) : bool :=
  bool_decide (b !! field = None).

(** The rating lies outside [0,5]. *)
Definition rating_out_of_range (b : gmap string Value) : bool :=
  match b !! "rating" with
  | Some (VNum q) => negb (Qle_bool 0 q) || negb (Qle_bool q 5)
  | _ => false
  end.

(** When the submit operation answers 400, as the specification words
    it. *)
Definition submit_is_rejected (b : gmap string Value) : bool :=
  missing b "audioId" || missing b "title" || missing b "rating"
  || missing b "sessionId" || rating_out_of_range b.

(** The values JavaScript takes for false: [undefined], [null], [false],
    zero and the empty string. *)
Definition falsy (v : Value) : Prop :=
  match v with
  | VUndefined | VNull => True
  | VBool b => b = false
  | VNum q => Qeq q 0
  | VStr s => s = ""
  | VObj _ _ => False
  end.

(** Reading back a CSV field whose quotes were doubled: a pair of double
    quotes is one quote of the text, a lone one is malformed. *)
Fixpoint undouble (s : string) : option string :=
  match s with
  | EmptyString => Some EmptyString
  | String c rest =>
      if Ascii.eqb c JS.dq then
        match rest with
        | String c' rest' =>
            if Ascii.eqb c' JS.dq then String JS.dq <$> undouble rest'
            else None
        | EmptyString => None
        end
      else String c <$> undouble rest
  end.

(** The column order of the CSV export. *)
Definition csv_header_line : string :=
  "ID,Audio ID,Title,Rating,Date,Time,Session ID,IP Address,Created At".
End Spec.

(** ** Requests used as examples *)

Module Ex.
(** A framework that routes on the exact method and path and has no
    static file. *)
Definition express : Server.Express :=
  Server.mkExpress
    (λ verb pattern req,
       String.eqb (Server.method req)
                  (if String.eqb verb "get" then "GET" else "POST")
       && String.eqb (Server.path req) pattern)
    (λ _, false).

Definition list_empty_session : Netlify.Event :=
  Netlify.mkEvent "GET" "/.netlify/functions/api/reviews"
                  (Some {[ "sessionId" := "" ]}) ∅ None.

Definition server_list_empty_session : Server.Request :=
  Server.mkRequest "GET" "/api/reviews" {[ "sessionId" := "" ]} (Some ∅) ∅
                   (Some "10.0.0.7") (Some "10.0.0.7").




(** The body [{audioId: 0, title: "Track A", rating: 3, sessionId: "s1"}]. *)
Definition audio_zero : gmap string Value :=
  {[ "audioId" := VNum 0; "title" := VStr "Track A"; "rating" := VNum 3;
     "sessionId" := VStr "s1" ]}.
(** The body [{audioId: 1, title: "Track A", rating: 4.5, date: "2/11",
    time: "10:00", sessionId: "s1"}]. *)
Definition track_a : gmap string Value :=
  {[ "audioId" := VNum 1; "title" := VStr "Track A";
     "rating" := VNum (45 # 10); "date" := VStr "2/11";
     "time" := VStr "10:00"; "sessionId" := VStr "s1" ]}.

Definition submit_track_a : Netlify.Event :=
  Netlify.mkEvent "POST" "/.netlify/functions/api/reviews" None
                  {[ "x-real-ip" := "10.0.0.9" ]} (Some track_a).

(** A submission that reaches the standalone server with no address
    known to the framework. *)
Definition server_submit_no_address : Server.Request :=
  Server.mkRequest "POST" "/api/reviews" ∅ (Some track_a) ∅ None None.
(** The title [He said "hi"]. *)
Definition he_said_hi : string :=
  "He said " +:+ String JS.dq "hi" +:+ String JS.dq "".

(** The same title as the export writes it: wrapped in double quotes,
    with two double quotes before and after [hi]. *)
Definition he_said_hi_quoted : string :=
  String JS.dq "He said " +:+ String JS.dq (String JS.dq "hi")
  +:+ String JS.dq (String JS.dq (String JS.dq "")).
(** The table after [submit_track_a] at instant 100, and after a second
    session reviewed the same item at instant 200. *)
Definition store1 : Db.Store :=
  (Netlify.handler Db.empty 100 submit_track_a).1.

Definition track_a_s2 : gmap string Value :=
  <[ "sessionId" := VStr "s2" ]> (<[ "rating" := VNum 2 ]> track_a).

Definition store2 : Db.Store :=
  (Netlify.handler store1 200
     (Netlify.mkEvent "POST" "/.netlify/functions/api/reviews" None
                      {[ "x-forwarded-for" := "10.0.0.1" ]}
                      (Some track_a_s2))).1.
(** [track_a] with the rating 7. *)
Definition rating_seven : gmap string Value :=
  <[ "rating" := VNum 7 ]> track_a.

(** [track_a] resubmitted with another rating. *)
Definition track_a_again : gmap string Value :=
  <[ "rating" := VNum 3 ]> track_a.
(** A session id of 101 characters, the last one a space, and the same
    without the space. *)
Definition session100 : string :=
  string_of_list_ascii (repeat "a"%char 100).

Definition track_a_long_session : gmap string Value :=
  <[ "sessionId" := VStr (session100 +:+ " ") ]> track_a.
Definition submit_audio_zero : Netlify.Event :=
  Netlify.mkEvent "POST" "/.netlify/functions/api/reviews" None ∅
                  (Some audio_zero).
End Ex.

(** ** Invariants of the table *)

Module Inv.
(** The ids are pairwise distinct and below the next value of the
    sequence. *)
Definition ids_fresh (st : Db.Store) : Prop :=
  NoDup (Db.id <$> Db.rows st)
  ∧ ∀ r, r ∈ Db.rows st → Db.id r < Db.next_id st.

(** Every stored rating passes the column's CHECK, in hundredths. *)
Definition ratings_checked (st : Db.Store) : Prop :=
  ∀ r, r ∈ Db.rows st → 0 ≤ Db.rating r ≤ 500.

(** The row an INSERT adds. *)
Definition inserted (st : Db.Store) (now : Z) (k : string * Z)
    (w : Db.Written) : Db.Row :=
  Db.mkRow (Db.next_id st) k.2 (Db.w_title w) (Db.w_rating w)
           (Db.w_timestamp w) (Db.w_date w) (Db.w_time w)
           (Db.w_user_agent w) k.1 (Db.w_ip_address w) now now.

(** The status codes the handlers answer. *)
Definition statuses : list Z := [200; 400; 404; 500].

Definition sum (l : list Z) : Z := foldr Z.add 0 l.
End Inv.

(** * Properties *)

(** ** Validation of the session id *)

Lemma truthy_str_spec (o : option string) :
  JS.truthy_str o = true ↔ ∃ s, o = Some s ∧ s ≠ "".
Proof.
  destruct o as [s|]; simpl.
  - rewrite negb_true_iff, String.eqb_neq. split.
    + intros Hs. exists s. done.
    + intros (s' & [= <-] & Hs). done.
  - split; [done | intros (s & [=] & _)].
Qed.

(** Past the middleware, the server answers as the dispatched route
    says. *)
Lemma Server_app_dispatch `{Platform} express st now req :
  Server.method req ≠ "OPTIONS" →
  Server.body req ≠ None →
  Server.serves express req = false →
  Server.app express st now req
  = match Server.dispatch express req with
    | Some Server.ListReviews =>
        (st, Api.getReviews st (Server.query req !! "sessionId"))
    | Some Server.SubmitReview =>
        Api.submitReview st now (Server.body req)
                         (JS.str_value (Server.clientIp req))
    | Some Server.AdminReviews =>
        (st, Api.getAllReviews st now (Server.query req !! "limit")
               (Server.query req !! "offset") (Server.query req !! "format"))
    | Some Server.AdminAnalytics => (st, Api.getAnalytics st)
    | Some Server.Index => (st, Api.json 200 (File "public/index.html"))
    | Some Server.HealthCheck =>
        (st, Api.json 200 (Health (toISOString now)))
    | None => (st, Api.json 404 (Error "Not found"))
    end.
Proof.
  intros Hm Hb Hs. unfold Server.app.
  apply String.eqb_neq in Hm. rewrite Hm, Hs.
  by rewrite bool_decide_eq_false_2.
Qed.

(** C10. In the list-session-reviews operation an empty [sessionId] is
    handled as an absent one: the answer is 400 with the error
    "Session ID is required", whatever the store holds (it is not
    queried), in both entry points. *)
Theorem C10_empty_session_id_is_absent `{Platform}
    (st : Db.Store) (now : Z) (event : Netlify.Event)
    (express : Server.Express) (req : Server.Request) :
  Netlify.httpMethod event = "GET" →
  Routes.netlify_path event = "/reviews" →
  Netlify.param event "sessionId" = Some "" →
  Server.method req ≠ "OPTIONS" →
  Server.body req ≠ None →
  Server.serves express req = false →
  Server.dispatch express req = Some Server.ListReviews →
  Server.query req !! "sessionId" = Some "" →
  Api.getReviews st (Some "") = Api.getReviews st None
  ∧ Netlify.handler st now event
    = (st, mkResponse 400 Netlify.corsHeaders (Error "Session ID is required"))
  ∧ Server.app express st now req
    = (st, mkResponse 400 [] (Error "Session ID is required")).
Proof.
  intros Hm Hp Hs Hm' Hb Hpub Hd Hq. repeat split.
  - unfold Netlify.handler, Routes.netlify_path in *.
    rewrite Hm, Hp. simpl.
    unfold Netlify.getReviews. rewrite Hs. reflexivity.
  - rewrite (Server_app_dispatch _ _ _ _ Hm' Hb Hpub), Hd, Hq. reflexivity.
Qed.

Lemma C10_empty_session_id_is_absent_witness :
  Netlify.handler Db.empty 0 Ex.list_empty_session
  = (Db.empty,
     mkResponse 400 Netlify.corsHeaders (Error "Session ID is required"))
  ∧ Server.app Ex.express Db.empty 0 Ex.server_list_empty_session
    = (Db.empty, mkResponse 400 [] (Error "Session ID is required")).
Proof.
  apply (C10_empty_session_id_is_absent Db.empty 0 Ex.list_empty_session
           Ex.express Ex.server_list_empty_session);
    solve [ vm_compute; reflexivity | discriminate ].
Defined.

(** ** Routing *)

Lemma Netlify_handler_submit `{Platform} st now event :
  Netlify.httpMethod event = "POST" →
  Routes.netlify_path event = "/reviews" →
  Netlify.handler st now event = Netlify.submitReview st now event.
Proof.
  intros Hm Hp. unfold Netlify.handler, Routes.netlify_path in *.
  rewrite Hm, Hp. reflexivity.
Qed.

Lemma Server_app_submit `{Platform} express st now req :
  Server.method req ≠ "OPTIONS" →
  Server.body req ≠ None →
  Server.serves express req = false →
  Server.dispatch express req = Some Server.SubmitReview →
  Server.app express st now req
  = Api.submitReview st now (Server.body req)
      (JS.str_value (Server.clientIp req)).
Proof.
  intros Hm Hb Hs Hd.
  by rewrite (Server_app_dispatch _ _ _ _ Hm Hb Hs), Hd.
Qed.



(** ** Required fields *)

(** C9. A submission whose [audioId] is the number 0 is answered 400
    with the message that names the missing required fields, and the
    store is left as it was: the check is on truthiness. *)
Theorem C9_audio_id_zero_rejected `{Platform}
    (st : Db.Store) (now : Z) (b : gmap string Value) (ip : Value)
    (event : Netlify.Event) :
  b !! "audioId" = Some (VNum 0) →
  Netlify.body event = Some b →
  Api.submitReview st now (Some b) ip
  = (st, mkResponse 400 []
           (Error "Missing required fields: audioId, title, rating, sessionId"))
  ∧ Netlify.submitReview st now event
    = (st, mkResponse 400 Netlify.corsHeaders
             (Error "Missing required fields: audioId, title, rating, sessionId")).
Proof.
  intros Ha Hb.
  assert (Hrej : ∀ ip', Api.submitReview st now (Some b) ip'
    = (st, mkResponse 400 []
         (Error "Missing required fields: audioId, title, rating, sessionId"))).
  { intros ip'. unfold Api.submitReview, Api.validate, JS.prop.
    rewrite Ha. reflexivity. }
  split; [apply Hrej|].
  unfold Netlify.submitReview. rewrite Hb, Hrej. reflexivity.
Qed.

Lemma C9_audio_id_zero_rejected_witness :
  Api.submitReview Db.empty 0 (Some Ex.audio_zero) (VStr "10.0.0.7")
  = (Db.empty, mkResponse 400 []
           (Error "Missing required fields: audioId, title, rating, sessionId"))
  ∧ Netlify.submitReview Db.empty 0 Ex.submit_audio_zero
    = (Db.empty, mkResponse 400 Netlify.corsHeaders
             (Error "Missing required fields: audioId, title, rating, sessionId")).
Proof.
  apply (C9_audio_id_zero_rejected Db.empty 0 Ex.audio_zero (VStr "10.0.0.7")
           Ex.submit_audio_zero); reflexivity.
Defined.

(** ** Analytics *)

(** C4. On a table without rows the analytics operation answers
    [totalReviews] 0, [averageRating] "0.00", and empty rating
    distribution and per-audio statistics. *)
Theorem C4_analytics_on_empty_store (st : Db.Store) :
  Db.rows st = [] →
  Api.getAnalytics st
  = Api.json 200 (Analytics (Stats.mkAnalytics 0 "0.00" 0 0 None None [] [])).
Proof.
  intros Hr. unfold Api.getAnalytics, Db.select_totals,
    Db.select_distribution, Db.select_audio_stats.
  rewrite Hr. reflexivity.
Qed.

Lemma C4_analytics_on_empty_store_witness :
  Api.getAnalytics Db.empty
  = Api.json 200 (Analytics (Stats.mkAnalytics 0 "0.00" 0 0 None None [] [])).
Proof. apply (C4_analytics_on_empty_store Db.empty). reflexivity. Defined.

(** ** Preflight and unknown routes *)




(** ** What an accepted submission writes *)

Lemma submit_accepted `{Platform} st now body ip st' r :
  Api.submitReview st now body ip = (st', r) →
  statusCode r = 200 →
  ∃ b i,
    body = Some b
    ∧ Api.validate (JS.prop b "audioId") (JS.prop b "title")
                   (JS.prop b "rating") (JS.prop b "sessionId") = None
    ∧ Api.upsert st now (JS.prop b "audioId") (JS.prop b "title")
        (JS.prop b "rating") (JS.prop b "timestamp") (JS.prop b "date")
        (JS.prop b "time") (JS.prop b "userAgent") (JS.prop b "sessionId") ip
      = Some (st', i)
    ∧ r = Api.json 200 (Submitted i "Review submitted successfully").
Proof.
  unfold Api.submitReview. destruct body as [b|].
  2: { intros [= <- <-]. discriminate. }
  destruct (Api.validate _ _ _ _) as [bad|] eqn:Hv.
  { intros [= <- <-] Hs. exfalso. revert Hv Hs. unfold Api.validate.
    repeat case_match; intros [= <-]; discriminate. }
  destruct (Api.upsert _ _ _ _ _ _ _ _ _ _ _) as [[st1 i]|] eqn:Hu.
  2: { intros [= <- <-]. discriminate. }
  intros [= <- <-] _. exists b, i. done.
Qed.

Lemma matching_hit st k r :
  r ∈ Db.matching st k → r ∈ Db.rows st ∧ Db.hit k r = true.
Proof.
  unfold Db.matching, Db.hit. destruct k as [[s a]|].
  - rewrite list_elem_of_filter. intros [Hh Hr]. split; [done|].
    by apply Is_true_true.
  - intros Hr. by apply elem_of_nil in Hr.
Qed.

Lemma upsert_written `{Platform} st now audioId title rating timestamp date
    time userAgent sessionId clientIp st' i :
  Api.upsert st now audioId title rating timestamp date time userAgent
             sessionId clientIp = Some (st', i) →
  ∃ w r,
    Db.written title rating timestamp date time userAgent clientIp = Some w
    ∧ r ∈ Db.rows st' ∧ Db.id r = i
    ∧ Db.written_of r = w ∧ Db.updated_at r = now.
Proof.
  unfold Api.upsert. intros Hu.
  destruct (Db.select_existing st sessionId audioId) as [ex|]; [|done].
  simpl in Hu. destruct (0 <? Db.count ex).
  - unfold Db.update_review in Hu.
    destruct (Db.written _ _ _ _ _ _ _) as [w|]; [|done]. simpl in Hu.
    destruct (Db.bind_pair sessionId audioId) as [k|]; [|done]. simpl in Hu.
    destruct (Db.matching st k) as [|r0 l] eqn:Hm; [done|].
    simpl in Hu. injection Hu as <- <-.
    destruct (matching_hit st k r0) as [Hr Hh]; [rewrite Hm; left|].
    exists w, (Db.overwrite w now r0).
    split_and!; [done| |done|by destruct w|done].
    simpl. apply list_elem_of_fmap. exists r0.
    unfold Db.updated. by rewrite Hh.
  - unfold Db.insert_review in Hu.
    destruct (Db.written _ _ _ _ _ _ _) as [w|]; [|done]. simpl in Hu.
    destruct (Db.stored_pair sessionId audioId) as [k|]; [|done].
    simpl in Hu. injection Hu as <- <-.
    eexists w, _.
    split_and!;
      [done | simpl; apply elem_of_app; right; left | done | by destruct w
      | done].
Qed.

Lemma written_ip `{Platform} title rating timestamp date time userAgent
    clientIp w :
  Db.written title rating timestamp date time userAgent clientIp = Some w →
  Db.bind pg_inet clientIp = Some (Db.w_ip_address w).
Proof.
  unfold Db.written. intros Hw.
  repeat match type of Hw with
         | (?x ≫= _) = Some _ =>
             let E := fresh in destruct x eqn:E; simpl in Hw; [|done]
         end.
  destruct (Db.bind pg_inet clientIp); simpl in Hw; [|done].
  by injection Hw as <-.
Qed.

(** ** The client address *)

Lemma or_str_first_populated a b :
  JS.or_str a b = Spec.first_populated [a] b.
Proof.
  unfold JS.or_str, JS.truthy_str. simpl.
  destruct a as [s|]; [|done]. by destruct (String.eqb s "").
Qed.

Lemma first_populated_cons a rest fallback :
  Spec.first_populated (a :: rest) fallback
  = JS.or_str a (Spec.first_populated rest fallback).
Proof.
  unfold JS.or_str, JS.truthy_str. simpl.
  destruct a as [s|]; [|done]. by destruct (String.eqb s "").
Qed.

Lemma or_str_assoc a b c :
  JS.or_str (JS.or_str a b) c = JS.or_str a (JS.or_str b c).
Proof.
  unfold JS.or_str. destruct (JS.truthy_str a) eqn:Ha; [by rewrite Ha|done].
Qed.

Lemma Netlify_clientIp_spec event :
  Netlify.clientIp event
  = Spec.first_populated [Netlify.headers event !! "x-forwarded-for";
                          Netlify.headers event !! "x-real-ip"]
                         (Some "unknown").
Proof.
  unfold Netlify.clientIp. rewrite !first_populated_cons. simpl.
  apply or_str_assoc.
Qed.

(** C6, as stated, fails on the standalone server: with neither header
    nor remote address populated the specification's words give
    "unknown", while the handler has no address ([undefined]) and the row
    it writes holds NULL. *)
Lemma C6_no_unknown_fallback_on_server :
  Spec.client_ip
    (Server.headers Ex.server_submit_no_address !! "x-forwarded-for")
    (Server.headers Ex.server_submit_no_address !! "x-real-ip")
    (Server.remoteAddress Ex.server_submit_no_address)
  = Some "unknown"
  ∧ Server.clientIp Ex.server_submit_no_address = None
  ∧ statusCode
      (Server.app Ex.express Db.empty 0 Ex.server_submit_no_address).2 = 200
  ∧ Db.ip_address
      <$> Db.rows (Server.app Ex.express Db.empty 0
                              Ex.server_submit_no_address).1
    = [None].
Proof. vm_compute. done. Qed.

(** C6, amended. The row an accepted submission writes holds, as its
    client address, the reading at the [ip_address] column of: in the
    serverless entry point, the first populated of the forwarded-for and
    real-ip headers, else "unknown" (no remote address is consulted); in
    the standalone server, the framework's [req.ip] when populated, else
    the connection's remote address as it is (no header is read and
    there is no "unknown"). *)
Theorem C6_stored_client_ip `{Platform}
    (st : Db.Store) (now : Z) (event : Netlify.Event)
    (express : Server.Express) (req : Server.Request) :
  (∀ st' r,
     Netlify.submitReview st now event = (st', r) →
     statusCode r = 200 →
     ∃ i row,
       body r = Submitted i "Review submitted successfully"
       ∧ row ∈ Db.rows st' ∧ Db.id row = i
       ∧ Db.bind pg_inet
           (JS.str_value
              (Spec.first_populated
                 [Netlify.headers event !! "x-forwarded-for";
                  Netlify.headers event !! "x-real-ip"] (Some "unknown")))
         = Some (Db.ip_address row))
  ∧ (∀ st' r,
       Server.method req ≠ "OPTIONS" →
       Server.serves express req = false →
       Server.dispatch express req = Some Server.SubmitReview →
       Server.app express st now req = (st', r) →
       statusCode r = 200 →
       ∃ i row,
         body r = Submitted i "Review submitted successfully"
         ∧ row ∈ Db.rows st' ∧ Db.id row = i
         ∧ Db.bind pg_inet
             (JS.str_value
                (Spec.first_populated
                   [Server.ip req] (Server.remoteAddress req)))
           = Some (Db.ip_address row)).
Proof.
  split.
  - intros st' r Hs Hr. unfold Netlify.submitReview in Hs.
    destruct (Api.submitReview _ _ _ _) as [st1 r1] eqn:Ha.
    injection Hs as <- <-. simpl in Hr.
    destruct (submit_accepted _ _ _ _ _ _ Ha Hr) as (b & i & _ & _ & Hu & ->).
    destruct (upsert_written _ _ _ _ _ _ _ _ _ _ _ _ _ Hu)
      as (w & row & Hw & Hin & Hid & Hwo & _).
    exists i, row. split_and!; [done..|].
    rewrite <- Netlify_clientIp_spec, (written_ip _ _ _ _ _ _ _ _ Hw).
    by rewrite <- Hwo.
  - intros st' r Hm Hsv Hd Hs Hr.
    destruct (decide (Server.body req = None)) as [Hb|Hb].
    { unfold Server.app in Hs. apply String.eqb_neq in Hm.
      rewrite Hm, Hb in Hs. simpl in Hs.
      injection Hs as <- <-. discriminate. }
    rewrite Server_app_submit in Hs by done.
    destruct (submit_accepted _ _ _ _ _ _ Hs Hr) as (b & i & _ & _ & Hu & ->).
    destruct (upsert_written _ _ _ _ _ _ _ _ _ _ _ _ _ Hu)
      as (w & row & Hw & Hin & Hid & Hwo & _).
    exists i, row. split_and!; [done..|].
    unfold Server.clientIp in Hw.
    rewrite <- or_str_first_populated, (written_ip _ _ _ _ _ _ _ _ Hw).
    by rewrite <- Hwo.
Qed.

Lemma C6_stored_client_ip_witness :
  ∃ i row,
    body (Netlify.submitReview Db.empty 0 Ex.submit_track_a).2
    = Submitted i "Review submitted successfully"
    ∧ row ∈ Db.rows (Netlify.submitReview Db.empty 0 Ex.submit_track_a).1
    ∧ Db.id row = i
    ∧ Db.bind pg_inet (VStr "10.0.0.9") = Some (Db.ip_address row).
Proof.
  destruct (C6_stored_client_ip Db.empty 0 Ex.submit_track_a Ex.express
              Ex.server_submit_no_address) as [HN _].
  apply (HN (Netlify.submitReview Db.empty 0 Ex.submit_track_a).1
            (Netlify.submitReview Db.empty 0 Ex.submit_track_a).2);
    vm_compute; reflexivity.
Defined.

(** ** CSV export *)

Lemma undouble_double_quotes s :
  Spec.undouble (JS.double_quotes s) = Some s.
Proof.
  induction s as [|c s IH]; [done|]. simpl.
  destruct (Ascii.eqb c JS.dq) eqn:Hc.
  - apply Ascii.eqb_eq in Hc as ->. simpl. by rewrite IH.
  - simpl. rewrite Hc, IH. done.
Qed.

Lemma csv_headers_joined `{Platform} :
  JS.join "," Api.csv_headers = Spec.csv_header_line.
Proof. reflexivity. Qed.

(** C5. The CSV export is a header line with the fixed column order
    followed by one line per review of the page, in the order of the
    page; a line joins with commas the id, the audio id, the title, the
    rating, the date, the time, the session id, the address and the
    creation instant; the title is wrapped in double quotes with every
    double quote of it doubled, so that it can be read back, and the
    title [Ex.he_said_hi] renders as [Ex.he_said_hi_quoted]. *)
Theorem C5_csv_export `{Platform}
    (st : Db.Store) (now : Z) (limit offset : option string)
    (page : list (Db.Row * Z)) :
  Db.select_page st (ParseInt.parseInt_default 1000 limit)
                    (ParseInt.parseInt_default 0 offset) = Some page →
  ∃ lines,
    body (Api.getAllReviews st now limit offset (Some "csv"))
    = Text (JS.join Api.newline (Spec.csv_header_line :: lines))
    ∧ length lines = length page
    ∧ (∀ i row total,
         page !! i = Some (row, total) →
         lines !! i
         = Some (JS.join ","
             [NumberToString (inject_Z (Db.id row));
              NumberToString (inject_Z (Db.audio_id row));
              String JS.dq (JS.double_quotes (Db.title row))
                +:+ String JS.dq "";
              NumberToString (Api.parseFloat_rating (Db.rating row));
              Db.date row; Db.time row; Db.session_id row;
              default "" (Db.ip_address row);
              DateToString (Db.created_at row)]))
    ∧ (∀ title, Spec.undouble (JS.double_quotes title) = Some title)
    ∧ Api.quoted Ex.he_said_hi = Ex.he_said_hi_quoted.
Proof.
  intros Hp.
  exists (Api.csv_line <$> ((λ row, Api.admin_review row.1) <$> page)).
  split_and!.
  - unfold Api.getAllReviews. rewrite Hp. reflexivity.
  - by rewrite !length_fmap.
  - intros i row total Hi. rewrite !list_lookup_fmap, Hi. reflexivity.
  - apply undouble_double_quotes.
  - reflexivity.
Qed.

Lemma C5_csv_export_witness :
  ∃ lines,
    body (Api.getAllReviews Ex.store2 300 None None (Some "csv"))
    = Text (JS.join Api.newline (Spec.csv_header_line :: lines))
    ∧ length lines = 2%nat.
Proof.
  destruct (C5_csv_export Ex.store2 300 None None
              ((λ r, (r, 2)) <$> Db.newest_first (Db.rows Ex.store2)))
    as (lines & H1 & H2 & _); [vm_compute; reflexivity|].
  exists lines. split; [exact H1 | exact H2].
Defined.

(** ** Newest first *)

Global Instance newer_total : Total Db.newer.
Proof. intros r1 r2. unfold Db.newer. lia. Qed.

Global Instance newer_transitive : Transitive Db.newer.
Proof. intros r1 r2 r3. unfold Db.newer. lia. Qed.

Lemma newest_first_sorted l : StronglySorted Db.newer (Db.newest_first l).
Proof. apply StronglySorted_merge_sort; apply _. Qed.

Lemma newest_first_perm l : Db.newest_first l ≡ₚ l.
Proof. apply merge_sort_Permutation. Qed.

(** ** Listing a session's reviews *)

Lemma filter_none {A} (P : A → Prop) `{∀ x, Decision (P x)} (l : list A) :
  (∀ x, x ∈ l → ¬ P x) → filter P l = [].
Proof.
  intros Hn. destruct (filter P l) as [|x l'] eqn:Hf; [done|].
  assert (Hx : x ∈ filter P l) by (rewrite Hf; left).
  apply list_elem_of_filter in Hx as [HP Hx]. by destruct (Hn x Hx).
Qed.

(** C3, as stated, fails for a [sessionId] that is present and empty:
    the session has no row, yet the answer is the 400 error and not an
    empty sequence with [success] true. *)
Lemma C3_present_but_empty_session_id :
  Netlify.param Ex.list_empty_session "sessionId" = Some ""
  ∧ filter (λ r, Db.session_id r = "") (Db.rows Ex.store2) = []
  ∧ Netlify.getReviews Ex.store2 Ex.list_empty_session
    = mkResponse 400 Netlify.corsHeaders (Error "Session ID is required")
  ∧ Netlify.getReviews Ex.store2 Ex.list_empty_session
    ≠ mkResponse 200 Netlify.corsHeaders (Reviews []).
Proof. split_and!; [vm_compute; reflexivity..|discriminate]. Qed.

(** C3, amended. For every [sessionId] that is present and not empty,
    the list-session-reviews operation answers 200 with exactly the
    stored reviews whose [session_id] equals it, newest first by
    [created_at], each row mapped one to one to (id, audioId, title,
    rating as a number, timestamp, date, time, sessionId, createdAt);
    when the session has no row the reviews are the empty sequence. *)
Theorem C3_list_session_reviews (st : Db.Store) (sessionId : string) :
  sessionId ≠ "" →
  ∃ selected,
    Api.getReviews st (Some sessionId)
    = Api.json 200 (Reviews (Api.public_review <$> selected))
    ∧ selected ≡ₚ filter (λ r, Db.session_id r = sessionId) (Db.rows st)
    ∧ StronglySorted (λ r1 r2, Db.created_at r2 ≤ Db.created_at r1) selected
    ∧ (∀ i row,
         selected !! i = Some row →
         (Api.public_review <$> selected) !! i
         = Some (Public.mkReview (Db.id row) (Db.audio_id row) (Db.title row)
                   (Qdiv (inject_Z (Db.rating row)) (inject_Z 100))
                   (Db.timestamp row) (Db.date row) (Db.time row)
                   (Db.session_id row) (Db.created_at row)))
    ∧ ((∀ r, r ∈ Db.rows st → Db.session_id r ≠ sessionId) →
       Api.getReviews st (Some sessionId) = Api.json 200 (Reviews [])).
Proof.
  intros Hs.
  assert (Ht : JS.truthy_str (Some sessionId) = true).
  { apply truthy_str_spec. by exists sessionId. }
  exists (Db.select_session st sessionId). split_and!.
  - unfold Api.getReviews. by rewrite Ht.
  - apply newest_first_perm.
  - apply newest_first_sorted.
  - intros i row Hi. rewrite list_lookup_fmap, Hi. reflexivity.
  - intros Hnone. unfold Api.getReviews. rewrite Ht. simpl.
    unfold Db.select_session.
    rewrite (filter_none _ _ Hnone). reflexivity.
Qed.

Lemma C3_list_session_reviews_witness :
  ∃ selected,
    Api.getReviews Ex.store2 (Some "s1")
    = Api.json 200 (Reviews (Api.public_review <$> selected))
    ∧ selected ≡ₚ filter (λ r, Db.session_id r = "s1") (Db.rows Ex.store2).
Proof.
  destruct (C3_list_session_reviews Ex.store2 "s1")
    as (selected & H1 & H2 & _); [discriminate|].
  exists selected. split; [exact H1 | exact H2].
Defined.

(** ** Admin listing *)



(** ** Validation of a submission *)

Lemma truthy_false_iff v : JS.truthy v = false ↔ Spec.falsy v.
Proof.
  destruct v as [| |b|q|s|prim sql]; simpl; try tauto.
  - rewrite negb_false_iff. apply Qeq_bool_iff.
  - rewrite negb_false_iff. apply String.eqb_eq.
  - split; [discriminate | tauto].
Qed.

Lemma is_undefined_iff v : JS.is_undefined v = true ↔ v = VUndefined.
Proof. destruct v; simpl; split; congruence. Qed.

Lemma validate_rejects `{Platform} audioId title rating sessionId :
  Api.validate audioId title rating sessionId ≠ None
  ↔ (Spec.falsy audioId ∨ Spec.falsy title ∨ rating = VUndefined
     ∨ Spec.falsy sessionId
     ∨ JS.lt_num rating 0 = true ∨ JS.gt_num rating 5 = true).
Proof.
  unfold Api.validate.
  rewrite <- !truthy_false_iff, <- is_undefined_iff.
  destruct (JS.truthy audioId), (JS.truthy title), (JS.is_undefined rating),
    (JS.truthy sessionId), (JS.lt_num rating 0), (JS.gt_num rating 5);
    simpl; split; try (intros _; tauto); try done;
    intros Hd; exfalso; intuition discriminate.
Qed.

Lemma validate_some `{Platform} audioId title rating sessionId bad :
  Api.validate audioId title rating sessionId = Some bad →
  statusCode bad = 400.
Proof. unfold Api.validate. repeat case_match; by intros [= <-]. Qed.

Lemma submit_400_iff `{Platform} st now b ip :
  statusCode (Api.submitReview st now (Some b) ip).2 = 400
  ↔ Api.validate (JS.prop b "audioId") (JS.prop b "title")
                 (JS.prop b "rating") (JS.prop b "sessionId") ≠ None.
Proof.
  unfold Api.submitReview.
  destruct (Api.validate _ _ _ _) as [bad|] eqn:Hv.
  - simpl. split; [done|]. intros _. by eapply validate_some.
  - destruct (Api.upsert _ _ _ _ _ _ _ _ _ _ _) as [[st' i]|]; simpl;
      split; (discriminate || done).
Qed.

Lemma submit_400_keeps_store `{Platform} st now body ip :
  statusCode (Api.submitReview st now body ip).2 = 400 →
  (Api.submitReview st now body ip).1 = st.
Proof.
  unfold Api.submitReview. destruct body as [b|]; [|done].
  destruct (Api.validate _ _ _ _) as [bad|]; [done|].
  destruct (Api.upsert _ _ _ _ _ _ _ _ _ _ _) as [[st' i]|]; simpl;
    (discriminate || done).
Qed.

Lemma lt_num_VNum `{Platform} q n : JS.lt_num (VNum q) n = true ↔ (q < n)%Q.
Proof.
  unfold JS.lt_num. simpl. rewrite negb_true_iff.
  rewrite <- not_true_iff_false, Qle_bool_iff. split.
  - apply Qnot_le_lt.
  - apply Qlt_not_le.
Qed.

Lemma gt_num_VNum `{Platform} q n : JS.gt_num (VNum q) n = true ↔ (n < q)%Q.
Proof.
  unfold JS.gt_num. simpl. rewrite negb_true_iff.
  rewrite <- not_true_iff_false, Qle_bool_iff. split.
  - apply Qnot_le_lt.
  - apply Qlt_not_le.
Qed.

(** C2, as stated, fails: the body
    [{audioId: 0, title: "Track A", rating: 3, sessionId: "s1"}] misses
    no required field and its rating is within [0,5], yet the answer is
    400. *)
Lemma C2_present_fields_rejected :
  Spec.submit_is_rejected Ex.audio_zero = false
  ∧ statusCode
      (Api.submitReview Db.empty 0 (Some Ex.audio_zero) (VStr "10.0.0.7")).2
    = 400.
Proof. split; vm_compute; reflexivity. Qed.

(** C2, amended. For every submit-review request with a parsed body, the
    answer is 400 if and only if [audioId], [title] or [sessionId] is
    falsy (absent, [null], [false], zero or the empty string), or
    [rating] is absent, or [rating] compares below 0 or above 5; a 400
    answer leaves the store as it was; in particular a numeric rating
    strictly below 0 or strictly above 5 always yields 400 and no store
    write. *)
Theorem C2_submit_400_iff `{Platform}
    (st : Db.Store) (now : Z) (b : gmap string Value) (ip : Value) :
  (statusCode (Api.submitReview st now (Some b) ip).2 = 400
   ↔ (Spec.falsy (JS.prop b "audioId") ∨ Spec.falsy (JS.prop b "title")
      ∨ JS.prop b "rating" = VUndefined ∨ Spec.falsy (JS.prop b "sessionId")
      ∨ JS.lt_num (JS.prop b "rating") 0 = true
      ∨ JS.gt_num (JS.prop b "rating") 5 = true))
  ∧ (statusCode (Api.submitReview st now (Some b) ip).2 = 400 →
     (Api.submitReview st now (Some b) ip).1 = st)
  ∧ (∀ q, b !! "rating" = Some (VNum q) →
          (q < 0 ∨ 5 < q)%Q →
          statusCode (Api.submitReview st now (Some b) ip).2 = 400
          ∧ (Api.submitReview st now (Some b) ip).1 = st).
Proof.
  assert (Hiff : statusCode (Api.submitReview st now (Some b) ip).2 = 400
   ↔ (Spec.falsy (JS.prop b "audioId") ∨ Spec.falsy (JS.prop b "title")
      ∨ JS.prop b "rating" = VUndefined ∨ Spec.falsy (JS.prop b "sessionId")
      ∨ JS.lt_num (JS.prop b "rating") 0 = true
      ∨ JS.gt_num (JS.prop b "rating") 5 = true)).
  { rewrite submit_400_iff. apply validate_rejects. }
  split_and!; [exact Hiff | apply submit_400_keeps_store |].
  intros q Hq Hout.
  assert (H400 : statusCode (Api.submitReview st now (Some b) ip).2 = 400).
  { apply Hiff. unfold JS.prop. rewrite Hq. simpl.
    destruct Hout as [Hlt | Hgt].
    - do 4 right. left. by apply lt_num_VNum.
    - do 5 right. by apply gt_num_VNum. }
  split; [exact H400 | by apply submit_400_keeps_store].
Qed.

Lemma C2_submit_400_iff_witness :
  statusCode
    (Api.submitReview Ex.store1 300 (Some Ex.rating_seven) (VStr "10.0.0.7")).2
  = 400
  ∧ (Api.submitReview Ex.store1 300 (Some Ex.rating_seven)
                      (VStr "10.0.0.7")).1
    = Ex.store1.
Proof.
  destruct (C2_submit_400_iff Ex.store1 300 Ex.rating_seven (VStr "10.0.0.7"))
    as (_ & _ & Hout).
  apply (Hout 7%Q); [reflexivity | right; reflexivity].
Defined.

(** ** One row per session and audio item *)

Lemma filter_fmap_stable {A} (P : A → Prop) `{∀ x, Decision (P x)}
    (f : A → A) (l : list A) :
  (∀ x, P (f x) ↔ P x) → filter P (f <$> l) = f <$> filter P l.
Proof.
  intros Hf. induction l as [|x l IH]; [done|].
  rewrite fmap_cons, !filter_cons, IH.
  destruct (decide (P (f x))) as [H1|H1], (decide (P x)) as [H2|H2];
    try done; exfalso; destruct (Hf x); tauto.
Qed.

Section upsert.
Context `{Platform}.

Lemma updated_same_pair k w now s a r :
  Db.same_pair s a (Db.updated k w now r) = Db.same_pair s a r.
Proof. unfold Db.updated. by destruct (Db.hit k r). Qed.

Lemma updated_id k w now r : Db.id (Db.updated k w now r) = Db.id r.
Proof. unfold Db.updated. by destruct (Db.hit k r). Qed.


Lemma pair_count_updated st k w now n s a :
  Db.pair_count (Db.mkStore (Db.updated k w now <$> Db.rows st) n) s a
  = Db.pair_count st s a.
Proof.
  unfold Db.pair_count. simpl.
  rewrite filter_fmap_stable, length_fmap; [done|].
  intros r. by rewrite updated_same_pair.
Qed.

Lemma ids_updated k w now (l : list Db.Row) :
  Db.id <$> (Db.updated k w now <$> l) = Db.id <$> l.
Proof.
  rewrite <- list_fmap_compose. apply list_fmap_ext.
  intros i r _. apply updated_id.
Qed.

Lemma pair_count_matching st s a :
  Db.pair_count st s a = length (Db.matching st (Some (s, a))).
Proof. reflexivity. Qed.

Lemma pair_count_inserted st r n s a :
  Db.pair_count (Db.mkStore (Db.rows st ++ [r]) n) s a
  = (Db.pair_count st s a + if Db.same_pair s a r then 1 else 0)%nat.
Proof.
  unfold Db.pair_count. simpl. rewrite filter_app, length_app. f_equal.
  rewrite filter_cons, filter_nil.
  destruct (decide (Is_true (Db.same_pair s a r))) as [Hp|Hp].
  - apply Is_true_true in Hp. by rewrite Hp.
  - apply Is_true_false in Hp. by rewrite Hp.
Qed.

Lemma same_pair_eq s a r :
  Db.same_pair s a r = true ↔ Db.session_id r = s ∧ Db.audio_id r = a.
Proof.
  unfold Db.same_pair. by rewrite andb_true_iff, String.eqb_eq, Z.eqb_eq.
Qed.




End upsert.



(** Why C1 asks that the pair be stored as it is looked up: where the
    [session_id] column cuts an over-long session id that ends in spaces,
    the row is stored under the cut id, the second submission looks for
    the uncut one, finds nothing and inserts a second row. *)
Remark resubmission_with_truncated_session_id :
  let first :=
    @Api.submitReview Sample.truncating Db.empty 100
      (Some Ex.track_a_long_session) (VStr "10.0.0.9") in
  let second :=
    @Api.submitReview Sample.truncating first.1 200
      (Some Ex.track_a_long_session) (VStr "10.0.0.9") in
  body first.2 = Submitted 1 "Review submitted successfully"
  ∧ body second.2 = Submitted 2 "Review submitted successfully"
  ∧ Db.pair_count second.1 Ex.session100 1 = 2%nat.
Proof. vm_compute. done. Qed.

(** * Further properties of the operations *)

(** ** The shape of an accepted submission *)

Lemma upsert_shape `{Platform} st now audioId title rating timestamp date
    time userAgent sessionId clientIp st' i :
  Api.upsert st now audioId title rating timestamp date time userAgent
             sessionId clientIp = Some (st', i) →
  ∃ k w,
    Db.written title rating timestamp date time userAgent clientIp = Some w
    ∧ Db.bind_pair sessionId audioId = Some k
    ∧ ((Db.matching st k ≠ []
        ∧ head (Db.id <$> Db.matching st k) = Some i
        ∧ st' = Db.mkStore (Db.updated k w now <$> Db.rows st) (Db.next_id st))
       ∨ (Db.matching st k = []
          ∧ ∃ ks,
              Db.stored_pair sessionId audioId = Some ks
              ∧ i = Db.next_id st
              ∧ st' = Db.mkStore (Db.rows st ++ [Inv.inserted st now ks w])
                                 (Db.next_id st + 1))).
Proof.
  unfold Api.upsert, Db.select_existing. intros Hu.
  destruct (Db.bind_pair sessionId audioId) as [k|] eqn:Hk; [|done].
  simpl in Hu.
  destruct (Db.matching st k) as [|r0 l] eqn:Hm; simpl in Hu.
  - unfold Db.insert_review in Hu.
    destruct (Db.written _ _ _ _ _ _ _) as [w|]; [|done]. simpl in Hu.
    destruct (Db.stored_pair sessionId audioId) as [ks|]; [|done].
    simpl in Hu. injection Hu as <- <-.
    exists k, w. split_and!; [done..|]. right. split; [done|].
    by exists ks.
  - unfold Db.update_review in Hu.
    destruct (Db.written _ _ _ _ _ _ _) as [w|]; [|done].
    rewrite Hk in Hu. simpl in Hu.
    rewrite Hm in Hu. simpl in Hu. injection Hu as <- <-.
    exists k, w. split_and!; [done..|]. left.
    split_and!; [by rewrite Hm | by rewrite Hm | done].
Qed.

Lemma written_rating `{Platform} title rating timestamp date time userAgent
    clientIp w :
  Db.written title rating timestamp date time userAgent clientIp = Some w →
  0 ≤ Db.w_rating w ≤ 500.
Proof.
  unfold Db.written. intros Hw.
  destruct (Db.not_null (Db.bind (pg_varchar 500) title)); [|done].
  simpl in Hw.
  destruct (Db.not_null (Db.bind pg_numeric_3_2 rating)) as [z|]; [|done].
  simpl in Hw. unfold Db.check_rating in Hw.
  destruct ((0 <=? z) && (z <=? 500)) eqn:Hc; [|done]. simpl in Hw.
  apply andb_true_iff in Hc as [H0 H5].
  apply Z.leb_le in H0. apply Z.leb_le in H5.
  repeat match type of Hw with
         | (?x ≫= _) = Some _ => destruct x; simpl in Hw; [|done]
         end.
  injection Hw as <-. simpl. lia.
Qed.

(** The statuses of the submit operation, and what each means for the
    store. *)
Lemma submit_outcomes `{Platform} st now body ip :
  let res := Api.submitReview st now body ip in
  (statusCode res.2 = 200
   ∧ ∃ b i, body = Some b
       ∧ Api.upsert st now (JS.prop b "audioId") (JS.prop b "title")
           (JS.prop b "rating") (JS.prop b "timestamp") (JS.prop b "date")
           (JS.prop b "time") (JS.prop b "userAgent")
           (JS.prop b "sessionId") ip = Some (res.1, i)
       ∧ res.2 = Api.json 200 (Submitted i "Review submitted successfully"))
  ∨ ((statusCode res.2 = 400 ∨ statusCode res.2 = 500) ∧ res.1 = st
     ∧ headers res.2 = []).
Proof.
  intros res. subst res. unfold Api.submitReview.
  destruct body as [b|]; [|right; simpl; tauto].
  destruct (Api.validate _ _ _ _) as [bad|] eqn:Hv.
  { right. simpl. split_and!; [left; by eapply validate_some | done |].
    revert Hv. unfold Api.validate. repeat case_match; by intros [= <-]. }
  destruct (Api.upsert _ _ _ _ _ _ _ _ _ _ _) as [[st' i]|] eqn:Hu.
  - left. simpl. split; [done|]. by exists b, i.
  - right. simpl. tauto.
Qed.

(** ** What every answer of the serverless entry point has *)

Lemma getAllReviews_outcomes `{Platform} st now limit offset format :
  statusCode (Api.getAllReviews st now limit offset format) = 200
  ∨ Api.getAllReviews st now limit offset format = Api.internal_error.
Proof.
  unfold Api.getAllReviews.
  destruct (Db.select_page _ _ _); [|by right].
  left. by case_bool_decide.
Qed.

Lemma getReviews_outcomes st sessionId :
  statusCode (Api.getReviews st sessionId) = 200
  ∨ statusCode (Api.getReviews st sessionId) = 400.
Proof.
  unfold Api.getReviews. destruct (negb (JS.truthy_str sessionId)); auto.
Qed.

(** X1. Every answer of the serverless handler, errors included, carries
    the three CORS headers first. *)
Theorem X1_every_answer_has_cors `{Platform}
    (st : Db.Store) (now : Z) (event : Netlify.Event) :
  ∃ own,
    headers (Netlify.handler st now event).2
    = (Netlify.corsHeaders ++ own)%list.
Proof.
  unfold Netlify.handler.
  destruct (String.eqb (Netlify.httpMethod event) "OPTIONS").
  { by exists []. }
  repeat case_match; simpl; try (eexists; reflexivity).
  unfold Netlify.submitReview.
  destruct (Api.submitReview _ _ _ _) as [st' r]. simpl.
  eexists; reflexivity.
Qed.

(** X2. The serverless handler answers 200, 400, 404 or 500 and nothing
    else. *)
Theorem X2_status_codes `{Platform}
    (st : Db.Store) (now : Z) (event : Netlify.Event) :
  statusCode (Netlify.handler st now event).2 ∈ Inv.statuses.
Proof.
  unfold Netlify.handler, Inv.statuses.
  destruct (String.eqb (Netlify.httpMethod event) "OPTIONS").
  { simpl. set_solver. }
  repeat case_match; simpl.
  - destruct (getReviews_outcomes st (Netlify.param event "sessionId"))
      as [-> | ->]; set_solver.
  - unfold Netlify.submitReview.
    pose proof (submit_outcomes st now (Netlify.body event)
                  (JS.str_value (Netlify.clientIp event))) as Ho.
    simpl in Ho.
    destruct (Api.submitReview _ _ _ _) as [st' r]. simpl in *.
    destruct Ho as [[-> _] | [[-> | ->] _]]; set_solver.
  - destruct (getAllReviews_outcomes st now (Netlify.param event "limit")
                (Netlify.param event "offset") (Netlify.param event "format"))
      as [-> | ->]; simpl; set_solver.
  - set_solver.
  - set_solver.
Qed.



(** ** What a submission does to the table *)

Lemma updated_keeps k w now r :
  Db.id (Db.updated k w now r) = Db.id r
  ∧ Db.session_id (Db.updated k w now r) = Db.session_id r
  ∧ Db.audio_id (Db.updated k w now r) = Db.audio_id r
  ∧ Db.created_at (Db.updated k w now r) = Db.created_at r.
Proof. unfold Db.updated. by destruct (Db.hit k r). Qed.

(** The table after a submission, whatever its outcome. *)
Lemma submit_table `{Platform} st now body ip :
  let st' := (Api.submitReview st now body ip).1 in
  st' = st
  ∨ (∃ k w, st' = Db.mkStore (Db.updated k w now <$> Db.rows st)
                             (Db.next_id st))
  ∨ (∃ ks w, st' = Db.mkStore (Db.rows st ++ [Inv.inserted st now ks w])
                              (Db.next_id st + 1)).
Proof.
  intros st'. subst st'.
  destruct (submit_outcomes st now body ip)
    as [(_ & b & i & _ & Hu & _) | (_ & -> & _)]; [|by left].
  destruct (upsert_shape _ _ _ _ _ _ _ _ _ _ _ _ _ Hu)
    as (k & w & _ & _ & [(_ & _ & ->) | (_ & ks & _ & _ & ->)]).
  - right. left. by exists k, w.
  - right. right. by exists ks, w.
Qed.

(** X4. A submission never deletes or reorders a review: the table
    grows by at most one row, the sequence never goes back, and every
    row stays at its position with its id, session, audio item and
    creation instant. *)
Theorem X4_submit_keeps_rows `{Platform}
    (st : Db.Store) (now : Z) (body : option (gmap string Value))
    (ip : Value) :
  let st' := (Api.submitReview st now body ip).1 in
  (length (Db.rows st) ≤ length (Db.rows st') ≤ length (Db.rows st) + 1)%nat
  ∧ Db.next_id st ≤ Db.next_id st'
  ∧ ∀ n r,
      Db.rows st !! n = Some r →
      ∃ r',
        Db.rows st' !! n = Some r'
        ∧ Db.id r' = Db.id r
        ∧ Db.session_id r' = Db.session_id r
        ∧ Db.audio_id r' = Db.audio_id r
        ∧ Db.created_at r' = Db.created_at r.
Proof.
  intros st'. subst st'.
  destruct (submit_table st now body ip)
    as [-> | [(k & w & ->) | (ks & w & ->)]]; simpl.
  - split_and!; [lia..|]. intros n r Hn. by exists r.
  - rewrite length_fmap. split_and!; [lia..|]. intros n r Hn.
    exists (Db.updated k w now r). rewrite list_lookup_fmap, Hn.
    split; [done|]. apply updated_keeps.
  - rewrite length_app. simpl. split_and!; [lia..|]. intros n r Hn.
    exists r. split; [|done]. by apply lookup_app_l_Some.
Qed.

Lemma inserted_same_pair st now ks w s a :
  Db.same_pair s a (Inv.inserted st now ks w) = true ↔ ks = (s, a).
Proof.
  rewrite same_pair_eq. destruct ks as [s' a']. simpl.
  split; [by intros [-> ->] | by intros [= -> ->]].
Qed.

(** X5. A submission whose pair is stored as it is looked up keeps the
    table at one row per (session, audio item) at most, whatever its
    outcome. *)
Theorem X5_submit_keeps_one_row_per_pair `{Platform}
    (st : Db.Store) (now : Z) (b : gmap string Value) (ip : Value) :
  Db.one_row_per_pair st →
  Db.pair_kept (JS.prop b "sessionId") (JS.prop b "audioId") →
  Db.one_row_per_pair (Api.submitReview st now (Some b) ip).1.
Proof.
  intros Hinv Hkept.
  destruct (submit_outcomes st now (Some b) ip)
    as [(_ & b' & i & [= <-] & Hu & _) | (_ & -> & _)]; [|done].
  destruct (upsert_shape _ _ _ _ _ _ _ _ _ _ _ _ _ Hu)
    as (k & w & _ & Hk & [(_ & _ & ->) | (Hnil & ks & Hks & _ & ->)]).
  - intros s a. rewrite pair_count_updated. apply Hinv.
  - pose proof (Hkept ks Hks) as Hk'. rewrite Hk in Hk'. injection Hk' as ->.
    intros s a. rewrite pair_count_inserted.
    destruct (Db.same_pair s a _) eqn:Hp.
    + apply inserted_same_pair in Hp as ->.
      rewrite pair_count_matching, Hnil. simpl. lia.
    + specialize (Hinv s a). lia.
Qed.

Lemma X5_submit_keeps_one_row_per_pair_witness :
  Db.one_row_per_pair
    (Api.submitReview Db.empty 100 (Some Ex.track_a) (VStr "10.0.0.9")).1.
Proof.
  apply (X5_submit_keeps_one_row_per_pair Db.empty 100 Ex.track_a).
  - intros s a. unfold Db.pair_count. simpl. lia.
  - intros k Hk. vm_compute in Hk. injection Hk as <-. vm_compute. reflexivity.
Defined.

Lemma NoDup_fmap_eq {A B} (f : A → B) (l : list A) x y :
  NoDup (f <$> l) → x ∈ l → y ∈ l → f x = f y → x = y.
Proof.
  induction l as [|z l IH]; intros Hnd Hx Hy Hf.
  { by apply elem_of_nil in Hx. }
  rewrite fmap_cons in Hnd. apply NoDup_cons in Hnd as [Hz Hnd].
  apply elem_of_cons in Hx as [-> | Hx], Hy as [-> | Hy]; [done| | |by apply IH].
  - destruct Hz. rewrite Hf. apply list_elem_of_fmap. by exists y.
  - destruct Hz. rewrite <- Hf. apply list_elem_of_fmap. by exists x.
Qed.

(** X6. Ids stay distinct and below the sequence through any
    submission, and the id an accepted submission answers names exactly
    one row of the table. *)
Theorem X6_ids_stay_fresh `{Platform}
    (st : Db.Store) (now : Z) (payload : option (gmap string Value))
    (ip : Value) :
  Inv.ids_fresh st →
  Inv.ids_fresh (Api.submitReview st now payload ip).1
  ∧ ∀ i msg,
      body (Api.submitReview st now payload ip).2 = Submitted i msg →
      ∃ r, r ∈ Db.rows (Api.submitReview st now payload ip).1
           ∧ Db.id r = i
           ∧ ∀ r', r' ∈ Db.rows (Api.submitReview st now payload ip).1 →
                   Db.id r' = i → r' = r.
Proof.
  intros [Hnd Hlt].
  assert (Hfresh : Inv.ids_fresh (Api.submitReview st now payload ip).1).
  { destruct (submit_table st now payload ip)
      as [-> | [(k & w & ->) | (ks & w & ->)]]; [done| |].
    - split; simpl.
      + by rewrite ids_updated.
      + intros r (r0 & -> & Hr0)%list_elem_of_fmap.
        rewrite updated_id. by apply Hlt.
    - split; simpl.
      + rewrite fmap_app. apply NoDup_app. split_and!; [done| |].
        * intros i (r & -> & Hr)%list_elem_of_fmap Hi.
          simpl in Hi. apply list_elem_of_singleton in Hi.
          specialize (Hlt r Hr). lia.
        * simpl. apply NoDup_singleton.
      + intros r [Hr | Hr%list_elem_of_singleton]%elem_of_app.
        * specialize (Hlt r Hr). lia.
        * subst r. simpl. lia. }
  split; [done|]. intros i msg Hb.
  destruct (submit_outcomes st now payload ip)
    as [(_ & b & i' & _ & Hu & Hr) | ([Hs | Hs] & _ & _)].
  - rewrite Hr in Hb. injection Hb as <- <-.
    destruct (upsert_written _ _ _ _ _ _ _ _ _ _ _ _ _ Hu)
      as (w & r & _ & Hin & Hid & _).
    exists r. split_and!; [done..|]. intros r' Hin' Hid'.
    apply (NoDup_fmap_eq Db.id (Db.rows (Api.submitReview st now payload ip).1));
      [apply Hfresh | done | done | congruence].
  - exfalso. revert Hs Hb. unfold Api.submitReview.
    repeat case_match; simpl; try discriminate;
      unfold Api.validate in *; repeat case_match; simplify_eq; discriminate.
  - exfalso. revert Hs Hb. unfold Api.submitReview.
    repeat case_match; simpl; try discriminate;
      unfold Api.validate in *; repeat case_match; simplify_eq; discriminate.
Qed.

Lemma X6_ids_stay_fresh_witness :
  Inv.ids_fresh
    (Api.submitReview Db.empty 100 (Some Ex.track_a) (VStr "10.0.0.9")).1.
Proof.
  apply (X6_ids_stay_fresh Db.empty 100 (Some Ex.track_a) (VStr "10.0.0.9")).
  split; simpl; [apply NoDup_nil_2|].
  intros r Hr. by apply elem_of_nil in Hr.
Defined.

Lemma parseFloat_rating_bounds z :
  0 ≤ z ≤ 500 →
  (0 <= Api.parseFloat_rating z)%Q ∧ (Api.parseFloat_rating z <= 5)%Q.
Proof.
  intros Hz. unfold Api.parseFloat_rating, Qdiv, Qle. simpl.
  rewrite !Z.mul_1_r. lia.
Qed.

(** X7. The rating check of the table holds through any submission, and
    over a table that satisfies it every review the list operation
    returns has a rating between 0 and 5. *)
Theorem X7_ratings_stay_in_range `{Platform}
    (st : Db.Store) (now : Z) (payload : option (gmap string Value))
    (ip : Value) :
  Inv.ratings_checked st →
  Inv.ratings_checked (Api.submitReview st now payload ip).1
  ∧ ∀ sessionId reviews review,
      body (Api.getReviews st sessionId) = Reviews reviews →
      review ∈ reviews →
      (0 <= Public.rating review)%Q ∧ (Public.rating review <= 5)%Q.
Proof.
  intros Hc. split.
  - destruct (submit_outcomes st now payload ip)
      as [(_ & b & i & _ & Hu & _) | (_ & -> & _)]; [|done].
    destruct (upsert_shape _ _ _ _ _ _ _ _ _ _ _ _ _ Hu)
      as (k & w & Hw & _ & [(_ & _ & ->) | (_ & ks & _ & _ & ->)]);
      apply written_rating in Hw; intros r; simpl.
    + intros (r0 & -> & Hr0)%list_elem_of_fmap. unfold Db.updated.
      destruct (Db.hit k r0); [done | by apply Hc].
    + intros [Hr | Hr%list_elem_of_singleton]%elem_of_app;
        [by apply Hc | by subst r].
  - intros sessionId reviews review Hb Hin. unfold Api.getReviews in Hb.
    destruct (negb (JS.truthy_str sessionId)); [done|].
    simpl in Hb. injection Hb as <-.
    apply list_elem_of_fmap in Hin as (row & -> & Hrow).
    apply parseFloat_rating_bounds, Hc.
    unfold Db.select_session, Db.newest_first in Hrow.
    rewrite merge_sort_Permutation in Hrow.
    by apply list_elem_of_filter in Hrow as [_ Hrow].
Qed.

Lemma X7_ratings_stay_in_range_witness :
  Inv.ratings_checked
    (Api.submitReview Db.empty 100 (Some Ex.track_a) (VStr "10.0.0.9")).1.
Proof.
  apply (X7_ratings_stay_in_range Db.empty 100 (Some Ex.track_a)
           (VStr "10.0.0.9")).
  intros r Hr. by apply elem_of_nil in Hr.
Defined.

(** ** Submitting, then listing *)

Lemma bind_pair_session `{Platform} s audioId s' a :
  Db.bind_pair (VStr s) audioId = Some (Some (s', a)) → s' = s.
Proof.
  unfold Db.bind_pair, Db.bind. simpl. intros Hb.
  destruct (Db.prepareValue audioId) as [t|]; simpl in Hb; [|done].
  destruct (pg_int4 t); simpl in Hb; [|done]. by injection Hb as <- _.
Qed.




(** ** The two branches of a submission *)

(** X9. When the table already has a row for the pair, an accepted
    submission rewrites the rows of that pair (title, rating, timestamp,
    date, time, user agent and address from the request, [updated_at] at
    the current instant, id and [created_at] kept), leaves every other
    row as it is, adds none and does not advance the sequence. *)
Theorem X9_resubmission_overwrites `{Platform}
    (st st' : Db.Store) (now : Z) (b : gmap string Value) (ip : Value)
    (s : string) (a : Z) (r : Response) :
  Db.bind_pair (JS.prop b "sessionId") (JS.prop b "audioId")
  = Some (Some (s, a)) →
  Db.pair_count st s a ≠ 0%nat →
  Api.submitReview st now (Some b) ip = (st', r) →
  statusCode r = 200 →
  ∃ w,
    Db.written (JS.prop b "title") (JS.prop b "rating")
      (JS.prop b "timestamp") (JS.prop b "date") (JS.prop b "time")
      (JS.prop b "userAgent") ip = Some w
    ∧ Db.next_id st' = Db.next_id st
    ∧ length (Db.rows st') = length (Db.rows st)
    ∧ ∀ n row,
        Db.rows st !! n = Some row →
        Db.rows st' !! n
        = Some (if Db.same_pair s a row then
                  Db.mkRow (Db.id row) (Db.audio_id row) (Db.w_title w)
                    (Db.w_rating w) (Db.w_timestamp w) (Db.w_date w)
                    (Db.w_time w) (Db.w_user_agent w) (Db.session_id row)
                    (Db.w_ip_address w) (Db.created_at row) now
                else row).
Proof.
  intros Hk Hcount Hsub Hr.
  destruct (submit_accepted _ _ _ _ _ _ Hsub Hr)
    as (b' & i & [= <-] & _ & Hu & ->).
  destruct (upsert_shape _ _ _ _ _ _ _ _ _ _ _ _ _ Hu)
    as (k & w & Hw & Hk' & [(_ & _ & ->) | (Hnil & _)]);
    rewrite Hk in Hk'; injection Hk' as <-.
  - exists w. simpl. rewrite length_fmap. split_and!; [done..|].
    intros n row Hn. by rewrite list_lookup_fmap, Hn.
  - rewrite pair_count_matching, Hnil in Hcount. done.
Qed.

Lemma X9_resubmission_overwrites_witness :
  ∃ w,
    Db.written (JS.prop Ex.track_a_again "title")
      (JS.prop Ex.track_a_again "rating")
      (JS.prop Ex.track_a_again "timestamp") (JS.prop Ex.track_a_again "date")
      (JS.prop Ex.track_a_again "time") (JS.prop Ex.track_a_again "userAgent")
      (VStr "10.0.0.1") = Some w
    ∧ Db.next_id
        (Api.submitReview Ex.store1 200 (Some Ex.track_a_again)
                          (VStr "10.0.0.1")).1
      = Db.next_id Ex.store1.
Proof.
  destruct (X9_resubmission_overwrites Ex.store1
              (Api.submitReview Ex.store1 200 (Some Ex.track_a_again)
                                (VStr "10.0.0.1")).1
              200 Ex.track_a_again (VStr "10.0.0.1") "s1" 1
              (Api.submitReview Ex.store1 200 (Some Ex.track_a_again)
                                (VStr "10.0.0.1")).2)
    as (w & Hw & Hn & _).
  - vm_compute. reflexivity.
  - vm_compute. discriminate.
  - vm_compute. reflexivity.
  - vm_compute. reflexivity.
  - by exists w.
Defined.

(** X10. When the table has no row for the pair, an accepted submission
    appends exactly one row: its id is the next value of the sequence,
    which is the id answered and is then advanced by one; its
    [created_at] and [updated_at] are the current instant; the rows
    already there are untouched. *)
Theorem X10_first_submission_inserts `{Platform}
    (st st' : Db.Store) (now : Z) (b : gmap string Value) (ip : Value)
    (k : option (string * Z)) (r : Response) :
  Db.bind_pair (JS.prop b "sessionId") (JS.prop b "audioId") = Some k →
  Db.matching st k = [] →
  Api.submitReview st now (Some b) ip = (st', r) →
  statusCode r = 200 →
  ∃ w ks,
    Db.written (JS.prop b "title") (JS.prop b "rating")
      (JS.prop b "timestamp") (JS.prop b "date") (JS.prop b "time")
      (JS.prop b "userAgent") ip = Some w
    ∧ Db.stored_pair (JS.prop b "sessionId") (JS.prop b "audioId") = Some ks
    ∧ body r = Submitted (Db.next_id st) "Review submitted successfully"
    ∧ Db.next_id st' = Db.next_id st + 1
    ∧ Db.rows st'
      = (Db.rows st
         ++ [Db.mkRow (Db.next_id st) ks.2 (Db.w_title w) (Db.w_rating w)
               (Db.w_timestamp w) (Db.w_date w) (Db.w_time w)
               (Db.w_user_agent w) ks.1 (Db.w_ip_address w) now now])%list.
Proof.
  intros Hk Hnil Hsub Hr.
  destruct (submit_accepted _ _ _ _ _ _ Hsub Hr)
    as (b' & i & [= <-] & _ & Hu & ->).
  destruct (upsert_shape _ _ _ _ _ _ _ _ _ _ _ _ _ Hu)
    as (k' & w & Hw & Hk' & [(Hne & _) | (_ & ks & Hks & -> & ->)]);
    rewrite Hk in Hk'; injection Hk' as <-; [done|].
  by exists w, ks.
Qed.

Lemma X10_first_submission_inserts_witness :
  Db.next_id
    (Api.submitReview Db.empty 100 (Some Ex.track_a) (VStr "10.0.0.9")).1
  = 2.
Proof.
  destruct (X10_first_submission_inserts Db.empty
              (Api.submitReview Db.empty 100 (Some Ex.track_a)
                                (VStr "10.0.0.9")).1
              100 Ex.track_a (VStr "10.0.0.9") (Some ("s1", 1))
              (Api.submitReview Db.empty 100 (Some Ex.track_a)
                                (VStr "10.0.0.9")).2)
    as (w & ks & _ & _ & _ & Hn & _);
    [vm_compute; reflexivity..|].
  exact Hn.
Defined.

(** ** Analytics over any table *)

Lemma sum_app l1 l2 : Inv.sum (l1 ++ l2) = Inv.sum l1 + Inv.sum l2.
Proof. unfold Inv.sum. induction l1 as [|x l1 IH]; simpl; lia. Qed.

Lemma sum_perm l1 l2 : l1 ≡ₚ l2 → Inv.sum l1 = Inv.sum l2.
Proof. unfold Inv.sum. induction 1; simpl; lia. Qed.

Lemma count_filter_split {A} (P Q : A → Prop)
    `{∀ x, Decision (P x), ∀ x, Decision (Q x)} (l : list A) :
  (∀ x, P x → Q x → False) →
  Db.count (filter P l) + Db.count (filter Q l)
  = Db.count (filter (λ x, P x ∨ Q x) l).
Proof.
  intros Hdis. unfold Db.count. induction l as [|x l IH]; [done|].
  rewrite !filter_cons.
  destruct (decide (P x)) as [HP|HP], (decide (Q x)) as [HQ|HQ],
    (decide (P x ∨ Q x)) as [HPQ|HPQ];
    simpl length; first [lia | exfalso; by eauto | exfalso; tauto].
Qed.

Lemma filter_all {A} (P : A → Prop) `{∀ x, Decision (P x)} (l : list A) :
  (∀ x, x ∈ l → P x) → filter P l = l.
Proof.
  induction l as [|x l IH]; intros Hall; [done|].
  rewrite filter_cons_True by (apply Hall; left).
  f_equal. apply IH. intros y Hy. apply Hall. by right.
Qed.

(** Counting a list group by group counts every element once. *)
Lemma group_counts {A K} `{EqDecision K} (f : A → K) (l : list A)
    (ks : list K) :
  NoDup ks →
  Inv.sum ((λ k, Db.count (filter (λ x, f x = k) l)) <$> ks)
  = Db.count (filter (λ x, f x ∈ ks) l).
Proof.
  induction 1 as [|k ks Hk Hnd IH].
  - simpl. rewrite (filter_none (λ x, f x ∈ [])); [done|].
    intros x _ Hx. by apply elem_of_nil in Hx.
  - rewrite fmap_cons. change (Inv.sum (?x :: ?l)) with (x + Inv.sum l).
    rewrite IH, count_filter_split.
    + f_equal. apply list_filter_iff. intros x. rewrite elem_of_cons.
      split; [intros [-> | Hx]; tauto | intros [-> | Hx]; tauto].
    + intros x <- Hx. done.
Qed.

Lemma group_counts_total {A K} `{EqDecision K} (f : A → K) (l : list A) :
  Inv.sum ((λ k, Db.count (filter (λ x, f x = k) l))
             <$> remove_dups (f <$> l))
  = Db.count l.
Proof.
  rewrite group_counts by apply NoDup_remove_dups. f_equal.
  apply filter_all. intros x Hx.
  apply elem_of_remove_dups, list_elem_of_fmap. by exists x.
Qed.

Lemma strictly_sorted (l : list Z) :
  StronglySorted Z.le l → NoDup l → StronglySorted Z.lt l.
Proof.
  induction 1 as [|x l Hs IH Hall]; intros Hnd; [constructor|].
  apply NoDup_cons in Hnd as [Hx Hnd]. constructor; [by apply IH|].
  rewrite Forall_forall in *. intros y Hy.
  assert (x ≠ y) by (intros ->; by apply Hx, list_elem_of_In).
  specialize (Hall y Hy). lia.
Qed.

Global Instance Zle_total : Total Z.le.
Proof. intros x y. lia. Qed.

Global Instance more_reviewed_total : Total Db.more_reviewed.
Proof. intros g1 g2. unfold Db.more_reviewed. lia. Qed.

Global Instance more_reviewed_transitive : Transitive Db.more_reviewed.
Proof. intros g1 g2 g3. unfold Db.more_reviewed. lia. Qed.

(** X11. For any table the analytics operation answers 200 with
    [totalReviews] the number of rows and a rating distribution whose
    buckets are strictly ascending, none empty, and whose counts add up
    to [totalReviews]; over a table that satisfies the rating check the
    buckets lie between 0 and 5. *)
Theorem X11_rating_distribution (st : Db.Store) :
  ∃ a,
    Api.getAnalytics st = Api.json 200 (Analytics a)
    ∧ Stats.totalReviews a = Z.of_nat (length (Db.rows st))
    ∧ Inv.sum (snd <$> Stats.ratingDistribution a) = Stats.totalReviews a
    ∧ StronglySorted Z.lt (fst <$> Stats.ratingDistribution a)
    ∧ (∀ k c, (k, c) ∈ Stats.ratingDistribution a → 1 ≤ c)
    ∧ (Inv.ratings_checked st →
       ∀ k c, (k, c) ∈ Stats.ratingDistribution a → 0 ≤ k ≤ 5).
Proof.
  eexists. split; [reflexivity|]. simpl. unfold Db.select_distribution.
  set (keys := remove_dups (Db.rating_floor <$> Db.rows st)).
  assert (Hperm : merge_sort Z.le keys ≡ₚ keys)
    by apply merge_sort_Permutation.
  assert (Hkey : ∀ k, k ∈ merge_sort Z.le keys →
            ∃ r, r ∈ Db.rows st ∧ Db.rating_floor r = k).
  { intros k. rewrite Hperm. unfold keys.
    rewrite elem_of_remove_dups, list_elem_of_fmap.
    intros (r & -> & Hr). by exists r. }
  split_and!.
  - done.
  - rewrite <- list_fmap_compose.
    rewrite (sum_perm _ ((λ k, Db.count (filter (λ r, Db.rating_floor r = k)
                                           (Db.rows st))) <$> keys))
      by (by apply fmap_Permutation).
    apply (group_counts_total Db.rating_floor).
  - rewrite <- list_fmap_compose.
    rewrite (list_fmap_ext _ id) by done.
    rewrite list_fmap_id. apply strictly_sorted.
    + apply StronglySorted_merge_sort; apply _.
    + rewrite Hperm. apply NoDup_remove_dups.
  - intros k c (k' & [= -> ->] & Hk)%list_elem_of_fmap.
    destruct (Hkey _ Hk) as (r & Hr & Hf).
    assert (Hin : r ∈ filter (λ r, Db.rating_floor r = k') (Db.rows st))
      by by apply list_elem_of_filter.
    unfold Db.count.
    destruct (filter _ (Db.rows st)); [by apply elem_of_nil in Hin|].
    simpl length. lia.
  - intros Hc k c (k' & [= -> ->] & Hk)%list_elem_of_fmap.
    destruct (Hkey _ Hk) as (r & Hr & <-). specialize (Hc r Hr).
    unfold Db.rating_floor. split.
    + apply Z.div_pos; lia.
    + apply Z.div_le_upper_bound; lia.
Qed.

(** X12. For any table the per-audio statistics list every (audio id,
    title) pair of the table exactly once, with at least one review
    each, ordered by review count descending, and the review counts add
    up to [totalReviews]. *)
Theorem X12_audio_statistics (st : Db.Store) :
  ∃ a,
    Api.getAnalytics st = Api.json 200 (Analytics a)
    ∧ Inv.sum (Stats.reviewCount <$> Stats.audioStats a)
      = Stats.totalReviews a
    ∧ StronglySorted (λ x y, Stats.reviewCount y ≤ Stats.reviewCount x)
                     (Stats.audioStats a)
    ∧ NoDup ((λ x, (Stats.audioId x, Stats.title x)) <$> Stats.audioStats a)
    ∧ (∀ r, r ∈ Db.rows st →
            ∃ x, x ∈ Stats.audioStats a
                 ∧ Stats.audioId x = Db.audio_id r
                 ∧ Stats.title x = Db.title r
                 ∧ 1 ≤ Stats.reviewCount x).
Proof.
  eexists. split; [reflexivity|].
  cbn [Stats.audioStats Stats.totalReviews Db.total_reviews Db.select_totals].
  set (key := λ r : Db.Row, (Db.audio_id r, Db.title r)).
  set (keys := remove_dups (key <$> Db.rows st)).
  set (group := λ k : Z * string,
         let g := filter (λ r, key r = k) (Db.rows st) in
         Db.mkAudioGroup k.1 k.2 (Db.count g) (Db.avg_rating g)).
  assert (Hperm : Db.select_audio_stats st ≡ₚ group <$> keys)
    by apply merge_sort_Permutation.
  assert (Hsorted : StronglySorted Db.more_reviewed (Db.select_audio_stats st))
    by (apply StronglySorted_merge_sort; apply _).
  split_and!.
  - rewrite <- list_fmap_compose.
    rewrite (sum_perm _ ((Stats.reviewCount ∘ Api.audio_stat)
                           <$> (group <$> keys)))
      by (by apply fmap_Permutation).
    rewrite <- list_fmap_compose.
    apply (group_counts_total key).
  - eapply StronglySorted_fmap; [|exact Hsorted].
    intros g1 g2 Hg. exact Hg.
  - rewrite <- list_fmap_compose, Hperm, <- list_fmap_compose.
    rewrite (list_fmap_ext _ id) by (by intros i [a t] _).
    rewrite list_fmap_id. apply NoDup_remove_dups.
  - intros r Hr.
    assert (Hk : key r ∈ keys).
    { apply elem_of_remove_dups, list_elem_of_fmap. by exists r. }
    exists (Api.audio_stat (group (key r))). split_and!; try done.
    + apply list_elem_of_fmap. exists (group (key r)). split; [done|].
      rewrite Hperm. apply list_elem_of_fmap. by exists (key r).
    + simpl.
      assert (Hin : r ∈ filter (λ r', key r' = key r) (Db.rows st))
        by by apply list_elem_of_filter.
      unfold Db.count.
      destruct (filter _ (Db.rows st)); [by apply elem_of_nil in Hin|].
      simpl length. lia.
Qed.

(** ** The admin page *)







(** ** The address of a serverless submission *)

Lemma Netlify_clientIp_populated event :
  ∃ s, Netlify.clientIp event = Some s ∧ s ≠ "".
Proof.
  unfold Netlify.clientIp.
  set (headers := JS.or_str (Netlify.headers event !! "x-forwarded-for")
                            (Netlify.headers event !! "x-real-ip")).
  unfold JS.or_str at 1.
  destruct (JS.truthy_str headers) eqn:Ht.
  - apply truthy_str_spec in Ht as (s & Hs & Hne). by exists s.
  - by exists "unknown".
Qed.

(** X15. In the serverless entry point the client address is always a
    non-empty text, so the row an accepted submission writes never holds
    NULL as its address. *)
Theorem X15_serverless_address_is_never_null `{Platform}
    (st st' : Db.Store) (now : Z) (event : Netlify.Event) (r : Response) :
  Netlify.submitReview st now event = (st', r) →
  statusCode r = 200 →
  ∃ i row address,
    body r = Submitted i "Review submitted successfully"
    ∧ row ∈ Db.rows st' ∧ Db.id row = i
    ∧ Db.ip_address row = Some address.
Proof.
  intros Hs Hr. unfold Netlify.submitReview in Hs.
  destruct (Api.submitReview _ _ _ _) as [st1 r1] eqn:Ha.
  injection Hs as <- <-. simpl in Hr.
  destruct (submit_accepted _ _ _ _ _ _ Ha Hr) as (b & i & _ & _ & Hu & ->).
  destruct (upsert_written _ _ _ _ _ _ _ _ _ _ _ _ _ Hu)
    as (w & row & Hw & Hin & Hid & Hwo & _).
  apply written_ip in Hw.
  destruct (Netlify_clientIp_populated event) as (s & Hip & _).
  rewrite Hip in Hw. unfold Db.bind in Hw. simpl in Hw.
  destruct (pg_inet s) as [address|]; [|done]. injection Hw as Hw.
  exists i, row, address. split_and!; [done..|].
  by rewrite <- Hwo in Hw.
Qed.

Lemma X15_serverless_address_is_never_null_witness :
  ∃ i row address,
    body (Netlify.submitReview Db.empty 100 Ex.submit_track_a).2
    = Submitted i "Review submitted successfully"
    ∧ row ∈ Db.rows (Netlify.submitReview Db.empty 100 Ex.submit_track_a).1
    ∧ Db.id row = i
    ∧ Db.ip_address row = Some address.
Proof.
  apply (X15_serverless_address_is_never_null Db.empty
           (Netlify.submitReview Db.empty 100 Ex.submit_track_a).1 100
           Ex.submit_track_a
           (Netlify.submitReview Db.empty 100 Ex.submit_track_a).2);
    vm_compute; reflexivity.
Defined.

(** ** The path the serverless handler dispatches on *)

Lemma prefix_app (p rest : string) : String.prefix p (p +:+ rest) = true.
Proof.
  induction p as [|c p IH].
  - change (EmptyString +:+ rest) with rest. by destruct rest.
  - change (String c p +:+ rest) with (String c (p +:+ rest)). simpl.
    destruct (ascii_dec c c); [exact IH | done].
Qed.

Lemma substring_all (s : string) : String.substring 0 (String.length s) s = s.
Proof. induction s as [|c s IH]; [done|]. simpl. by rewrite IH. Qed.

Lemma substring_app (p rest : string) :
  String.substring (String.length p)
                   (String.length (p +:+ rest) - String.length p)
                   (p +:+ rest)
  = rest.
Proof.
  induction p as [|c p IH].
  - change (EmptyString +:+ rest) with rest. simpl.
    rewrite Nat.sub_0_r. apply substring_all.
  - change (String c p +:+ rest) with (String c (p +:+ rest)). exact IH.
Qed.

Lemma replace_first_unfold pat by_ s :
  JS.replace_first pat by_ s
  = if String.prefix pat s then
      by_ +:+ String.substring (String.length pat)
                               (String.length s - String.length pat) s
    else
      match s with
      | EmptyString => EmptyString
      | String c s' => String c (JS.replace_first pat by_ s')
      end.
Proof. by destruct s. Qed.

(** X16. The serverless handler dispatches on what follows the function
    prefix: for a path that starts with [/.netlify/functions/api] the
    prefix is removed and the rest is matched against the routes; so a
    GET of [/.netlify/functions/api/reviews] lists, and a request whose
    path is the prefix alone is answered 404. *)
Theorem X16_function_prefix_is_stripped `{Platform}
    (st : Db.Store) (now : Z) (event : Netlify.Event) (rest : string) :
  Netlify.path event = "/.netlify/functions/api" +:+ rest →
  Routes.netlify_path event = rest
  ∧ (Netlify.httpMethod event = "GET" → rest = "/reviews" →
     Netlify.handler st now event = (st, Netlify.getReviews st event))
  ∧ (Netlify.httpMethod event ≠ "OPTIONS" → rest = "" →
     Netlify.handler st now event
     = (st, mkResponse 404 Netlify.corsHeaders (Error "Not found"))).
Proof.
  intros Hp.
  assert (Hrest : Routes.netlify_path event = rest).
  { unfold Routes.netlify_path. rewrite Hp, replace_first_unfold.
    rewrite prefix_app, substring_app. done. }
  split; [done|]. unfold Netlify.handler.
  fold (Routes.netlify_path event). rewrite Hrest. split.
  - intros -> ->. reflexivity.
  - intros Hm%String.eqb_neq ->. rewrite Hm. reflexivity.
Qed.

Lemma X16_function_prefix_is_stripped_witness :
  Routes.netlify_path Ex.list_empty_session = "/reviews".
Proof.
  apply (X16_function_prefix_is_stripped Db.empty 0 Ex.list_empty_session
           "/reviews").
  reflexivity.
Defined.

(** ** Submissions the table refuses *)





(** ** Sessions do not see each other *)

Lemma filter_fmap_fixed {A} (P : A → Prop) `{∀ x, Decision (P x)}
    (f : A → A) (l : list A) :
  (∀ x, P (f x) ↔ P x) → (∀ x, P x → f x = x) →
  filter P (f <$> l) = filter P l.
Proof.
  intros Hiff Hfix. rewrite filter_fmap_stable by done.
  rewrite <- (list_fmap_id (filter P l)) at 2.
  apply list_fmap_ext. intros i x Hx. apply Hfix.
  apply list_elem_of_lookup_2 in Hx.
  by apply list_elem_of_filter in Hx as [HP _].
Qed.

(** X18. A submission for one session leaves what the list operation
    returns for every other session exactly as it was. *)
Theorem X18_other_sessions_are_untouched `{Platform}
    (st : Db.Store) (now : Z) (b : gmap string Value) (ip : Value)
    (mine other : string) :
  JS.prop b "sessionId" = VStr mine →
  other ≠ mine →
  Db.pair_kept (VStr mine) (JS.prop b "audioId") →
  Api.getReviews (Api.submitReview st now (Some b) ip).1 (Some other)
  = Api.getReviews st (Some other).
Proof.
  intros Hs Hne Hkept.
  assert (Hsel : Db.select_session (Api.submitReview st now (Some b) ip).1
                   other = Db.select_session st other).
  { destruct (submit_outcomes st now (Some b) ip)
      as [(_ & b' & i & [= <-] & Hu & _) | (_ & -> & _)]; [|done].
    rewrite Hs in Hu.
    destruct (upsert_shape _ _ _ _ _ _ _ _ _ _ _ _ _ Hu)
      as (k & w & _ & Hk & [(_ & _ & ->) | (_ & ks & Hks & _ & ->)]);
      unfold Db.select_session; simpl; f_equal.
    - apply filter_fmap_fixed.
      + intros r. by destruct (updated_keeps k w now r) as (_ & -> & _).
      + intros r Hr. unfold Db.updated.
        destruct (Db.hit k r) eqn:Hhit; [|done]. exfalso.
        destruct k as [[s' a]|]; [|done].
        apply bind_pair_session in Hk as ->.
        apply same_pair_eq in Hhit as [Hsess _]. congruence.
    - pose proof (Hkept ks Hks) as Hk'. destruct ks as [s' a].
      apply bind_pair_session in Hk' as ->.
      rewrite filter_app, filter_cons_False, filter_nil; [|simpl; congruence].
      apply app_nil_r. }
  unfold Api.getReviews.
  change (default "" (Some other)) with other. by rewrite Hsel.
Qed.

Lemma X18_other_sessions_are_untouched_witness :
  Api.getReviews
    (Api.submitReview Ex.store1 200 (Some Ex.track_a_s2) (VStr "10.0.0.1")).1
    (Some "s1")
  = Api.getReviews Ex.store1 (Some "s1").
Proof.
  apply (X18_other_sessions_are_untouched Ex.store1 200 Ex.track_a_s2
           (VStr "10.0.0.1") "s2" "s1").
  - vm_compute. reflexivity.
  - discriminate.
  - intros k Hk. vm_compute in Hk. injection Hk as <-. vm_compute. reflexivity.
Defined.

(** ** The two entry points agree *)


